(** * OrientAI: scoring and ranking of programs for a student profile

    A shallow embedding of [orient_ai.py]: the dataclasses [StudentProfile]
    and [Program], the method [Program.score_for] and the function
    [recommend_programs], followed by the laws the specification states
    about them.

    Numbers.  The source computes on Python numbers (grades are [float],
    lengths are [int], every quotient is a true division).  The functions
    below are written once, over the interface [PyNum] that lists exactly
    the operations the source uses.  Two instances are given:
    - [Q_num]: exact rational arithmetic, the reading under which the
      specification states its formulas; the general laws are proved here;
    - [binary64_num]: IEEE 754 double precision, what a Python [float] is;
      it is used to evaluate the worked example bit for bit.

    Failure.  A Python division raises [ZeroDivisionError] on a zero
    divisor, so every [/] of the source is the fallible [py_truediv] and
    the functions live in the error monad [result]. *)

From Stdlib Require Import QArith Lqa ZArith List Sorted.
From Stdlib Require Import PrimFloat Uint63.
From stdpp Require Import gmap strings list.

(** ** Exceptions *)

Inductive exn : Set := ZeroDivisionError.

Inductive result (A : Type) : Type :=
| Ok (a : A)
| Raise (e : exn).
Arguments Ok {A} a.
Arguments Raise {A} e.

Definition bind {A B} (c : result A) (k : A -> result B) : result B :=
  match c with
  | Ok a => k a
  | Raise e => Raise e
  end.

Notation "'let*' x := c 'in' k" := (bind c (fun x => k))
  (at level 10, x pattern, c at level 100, k at level 200).

(** The body of a [for] loop that appends one value per item. *)
Fixpoint for_each {A B} (body : A -> result B) (l : list A) : result (list B) :=
  match l with
  | [] => Ok []
  | x :: l' =>
      let* y := body x in
      let* ys := for_each body l' in
      Ok (y :: ys)
  end.

(** ** The numbers of the source *)

Class PyNum (num : Type) : Type := {
  lit_0 : num;        (* 0.0 *)
  lit_1 : num;        (* 1.0 *)
  lit_0_5 : num;      (* 0.5 *)
  lit_10 : num;       (* 10.0 *)
  lit_0_6 : num;      (* 0.6 *)
  lit_0_25 : num;     (* 0.25 *)
  lit_0_15 : num;     (* 0.15 *)
  num_add : num -> num -> num;
  num_sub : num -> num -> num;
  num_mul : num -> num -> num;
  num_quot : num -> num -> num;      (* the quotient, divisor not zero *)
  num_ltb : num -> num -> bool;      (* x < y *)
  num_is_zero : num -> bool;         (* x == 0 *)
  num_of_nat : nat -> num            (* an int that is not negative *)
}.

Declare Scope pynum_scope.
Delimit Scope pynum_scope with py.
Infix "+" := num_add : pynum_scope.
Infix "-" := num_sub : pynum_scope.
Infix "*" := num_mul : pynum_scope.

Section Model.
Context {num : Type} `{PyNum num}.

(** *** Builtins *)

(** [x / y] *)
Definition py_truediv (x y : num) : result num :=
  if num_is_zero y then Raise ZeroDivisionError else Ok (num_quot x y).

(** [min(a, b)]: the first argument unless the second is smaller. *)
Definition py_min (a b : num) : num := if num_ltb b a then b else a.

(** [max(a, b)]: the first argument unless the second is greater. *)
Definition py_max (a b : num) : num := if num_ltb a b then b else a.

(** [sum(l)]: left to right, from zero. *)
Definition py_sum (l : list num) : num := fold_left num_add l lit_0.

(** [l[:k]]: a negative [k] counts from the end. *)
Definition slice_to {A} (l : list A) (k : Z) : list A :=
  if (0 <=? k)%Z then firstn (Z.to_nat k) l
  else firstn (Z.to_nat (Z.of_nat (length l) + k)) l.

(** [l.sort(key=key, reverse=True)].  The builtin sort is stable, also
    under [reverse=True]: the result is the one arrangement of [l] in
    non-increasing key order that keeps items of equal key in their
    original order.  It is written here as an insertion sort: an item
    moves past the items whose key is strictly greater, and no further. *)
Fixpoint insert_desc {A} (key : A -> num) (x : A) (l : list A) : list A :=
  match l with
  | [] => [x]
  | y :: l' =>
      if num_ltb (key x) (key y) then y :: insert_desc key x l'
      else x :: y :: l'
  end.

Fixpoint sort_reverse {A} (key : A -> num) (l : list A) : list A :=
  match l with
  | [] => []
  | x :: l' => insert_desc key x (sort_reverse key l')
  end.

(** *** The dataclasses *)

(** [min_grades] is a [dict] that is iterated over: it is kept as its
    items in insertion order.  [grades] is a [dict] that is only looked
    up: a finite map. *)
Record StudentProfile : Type := {
  student_name : string;
  grades : gmap string num;
  interests : list string;
  aspirations : list string
}.

Record Program : Type := {
  program_id : string;
  program_name : string;
  domain : string;
  min_grades : list (string * num);
  tags : list string
}.

(** [set(a) & set(b)] *)
Definition common (a b : list string) : gset string :=
  list_to_set a ∩ list_to_set b.

(** *** [Program.score_for] *)

(** One turn of the loop over [self.min_grades.items()]. *)
Definition normalized_grade (student : StudentProfile)
    (item : string * num) : result num :=
  let '(subject, required_grade) := item in
  let student_grade := default lit_0 (grades student !! subject) in
  let diff := (student_grade - required_grade)%py in
  let* q := py_truediv diff lit_10 in
  let normalized := (lit_0_5 + q)%py in
  let normalized := py_max lit_0 (py_min lit_1 normalized) in
  Ok normalized.

Definition grade_score (self : Program) (student : StudentProfile)
    : result num :=
  match min_grades self with
  | [] => Ok lit_0
  | _ :: _ =>
      let* scores := for_each (normalized_grade student) (min_grades self) in
      py_truediv (py_sum scores) (num_of_nat (length scores))
  end.

Definition interest_score (self : Program) (student : StudentProfile)
    : result num :=
  let common_tags := common (tags self) (interests student) in
  match tags self with
  | _ :: _ =>
      py_truediv (num_of_nat (size common_tags))
                 (num_of_nat (length (tags self)))
  | [] => Ok lit_0
  end.

Definition aspiration_score (self : Program) (student : StudentProfile)
    : num :=
  let common_aspirations := common (tags self) (aspirations student) in
  if (size common_aspirations =? 0)%nat then lit_0 else lit_1.

Definition score_for (self : Program) (student : StudentProfile)
    : result num :=
  let* grade_score := grade_score self student in
  let* interest_score := interest_score self student in
  let aspiration_score := aspiration_score self student in
  let final_score :=
    (lit_0_6 * grade_score + lit_0_25 * interest_score
     + lit_0_15 * aspiration_score)%py in
  Ok final_score.

(** *** [recommend_programs] *)

Definition recommend_programs (student : StudentProfile)
    (programs : list Program) (top_k : Z) : result (list (Program * num)) :=
  let* scored :=
    for_each (fun p => let* s := score_for p student in Ok (p, s)) programs in
  let scored := sort_reverse snd scored in
  Ok (slice_to scored top_k).

End Model.

Arguments StudentProfile num : clear implicits.
Arguments Program num : clear implicits.

(** ** Exact arithmetic *)

#[export] Instance Q_num : PyNum Q := {|
  lit_0 := 0%Q;
  lit_1 := 1%Q;
  lit_0_5 := (1 # 2)%Q;
  lit_10 := (10 # 1)%Q;
  lit_0_6 := (6 # 10)%Q;
  lit_0_25 := (25 # 100)%Q;
  lit_0_15 := (15 # 100)%Q;
  num_add := Qplus;
  num_sub := Qminus;
  num_mul := Qmult;
  num_quot := Qdiv;
  num_ltb := fun x y => negb (Qle_bool y x);
  num_is_zero := fun x => Qeq_bool x 0;
  num_of_nat := fun n => inject_Z (Z.of_nat n)
|}.

(** ** Double precision *)

(** A decimal literal denotes the nearest double, in Python as here. *)
#[local] Set Warnings "-inexact-float".

#[export] Instance binary64_num : PyNum float := {|
  lit_0 := 0%float;
  lit_1 := 1%float;
  lit_0_5 := 0.5%float;
  lit_10 := 10%float;
  lit_0_6 := 0.6%float;
  lit_0_25 := 0.25%float;
  lit_0_15 := 0.15%float;
  num_add := PrimFloat.add;
  num_sub := PrimFloat.sub;
  num_mul := PrimFloat.mul;
  num_quot := PrimFloat.div;
  num_ltb := PrimFloat.ltb;
  num_is_zero := fun x => PrimFloat.eqb x 0%float;
  num_of_nat := fun n => PrimFloat.of_uint63 (Uint63.of_Z (Z.of_nat n))
|}.

(** ** The example catalog and the worked example *)

Section Example.
Context {num : Type} `{PyNum num}.

Definition ing_info : Program num := {|
  program_id := "ing_info";
  program_name := "Cycle Prépa + Ingénieur Informatique";
  domain := "Informatique";
  min_grades := [("maths", num_of_nat 14); ("physique", num_of_nat 12);
                 ("francais", num_of_nat 10)];
  tags := ["informatique"; "programmation"; "algorithmes";
           "intelligence artificielle"]
|}.

Definition example_student : StudentProfile num := {|
  student_name := "";
  grades := <["maths" := num_of_nat 16]>
            (<["physique" := num_of_nat 14]>
            (<["francais" := num_of_nat 12]> ∅));
  interests := ["informatique"; "algorithmes"];
  aspirations := ["ingénieur"]
|}.
End Example.

(** [build_example_programs] *)
Section Catalog.
Context {num : Type} `{PyNum num}.

Definition medecine : Program num := {|
  program_id := "medecine";
  program_name := "Médecine";
  domain := "Santé";
  min_grades := [("maths", num_of_nat 12); ("physique", num_of_nat 13);
                 ("svt", num_of_nat 15); ("francais", num_of_nat 12)];
  tags := ["santé"; "biologie"; "contact humain"; "hôpital"]
|}.

Definition eco_gestion : Program num := {|
  program_id := "eco_gestion";
  program_name := "Économie & Gestion";
  domain := "Business";
  min_grades := [("maths", num_of_nat 11); ("francais", num_of_nat 12);
                 ("philo", num_of_nat 10)];
  tags := ["économie"; "management"; "entrepreneuriat"; "finance"]
|}.

Definition lettres : Program num := {|
  program_id := "lettres";
  program_name := "Lettres & Sciences Humaines";
  domain := "Lettres";
  min_grades := [("francais", num_of_nat 14); ("philo", num_of_nat 13);
                 ("langues", num_of_nat 14)];
  tags := ["littérature"; "philosophie"; "langues"; "écriture"]
|}.

Definition build_example_programs : list (Program num) :=
  [ing_info; medecine; eco_gestion; lettres].
End Catalog.

(** * The console part of the program *)

From Stdlib Require Import Ascii Floats.
From stdpp Require Import sorting pretty.

(** [input] and [print] act on the console: the lines still to be read and
    the texts written so far (a prompt of [input], or the argument of one
    [print]).  [input] raises [EOFError] when no line is left.  What a
    call can raise: *)
Inductive error : Set :=
| EOFError
| Arithmetic (e : exn).

Record console : Type := {
  stdin : list string;
  stdout : list string
}.

Inductive outcome (A : Type) : Type :=
| Return (a : A)
| Throw (e : error).
Arguments Return {A} a.
Arguments Throw {A} e.

Definition io (A : Type) : Type := console -> outcome A * console.

Definition io_ret {A} (a : A) : io A := fun w => (Return a, w).

Definition io_bind {A B} (c : io A) (k : A -> io B) : io B :=
  fun w =>
    match c w with
    | (Return a, w') => k a w'
    | (Throw e, w') => (Throw e, w')
    end.

Notation "'let!' x := c 'in' k" := (io_bind c (fun x => k))
  (at level 10, x pattern, c at level 100, k at level 200).

(** A call of the scoring core from the console part. *)
Definition io_lift {A} (r : result A) : io A :=
  fun w =>
    match r with
    | Ok a => (Return a, w)
    | Raise e => (Throw (Arithmetic e), w)
    end.

(** [input(prompt)] *)
Definition input (prompt : string) : io string :=
  fun w =>
    let w' := {| stdin := tail (stdin w); stdout := stdout w ++ [prompt] |} in
    match stdin w with
    | [] => (Throw EOFError, w')
    | line :: _ => (Return line, w')
    end.

(** [print(text)] *)
Definition print (text : string) : io unit :=
  fun w => (Return tt, {| stdin := stdin w; stdout := stdout w ++ [text] |}).

(** A [for] loop whose body prints. *)
Fixpoint io_for_each {A} (body : A -> io unit) (l : list A) : io unit :=
  match l with
  | [] => io_ret tt
  | x :: l' => let! _ := body x in io_for_each body l'
  end.

(** The line feed of the source's string literals. *)
Definition nl : string := String (Ascii.ascii_of_nat 10) EmptyString.

(** [s.split(",")].  A text is its UTF-8 bytes; the comma is one byte that
    occurs in no longer sequence, so the split is the split of the bytes. *)
Fixpoint split_comma (s : string) : list string :=
  match s with
  | EmptyString => [EmptyString]
  | String c s' =>
      if Ascii.eqb c ","%char then EmptyString :: split_comma s'
      else match split_comma s' with
           | [] => [String c EmptyString]
           | piece :: pieces => String c piece :: pieces
           end
  end.

(** [s.replace(",", ".")] *)
Fixpoint replace_comma (s : string) : string :=
  match s with
  | EmptyString => EmptyString
  | String c s' =>
      String (if Ascii.eqb c ","%char then "."%char else c) (replace_comma s')
  end.

(** [not s], for a text. *)
Definition is_empty (s : string) : bool :=
  match s with
  | EmptyString => true
  | String _ _ => false
  end.

Section Console.
Context {num : Type} `{PyNum num}.

(** The builtins the console part relies on and that are not spelled out:
    [str.strip], [str.lower], [float] of a text ([None] for [ValueError])
    and the format [:.2f]. *)
Variable strip : string -> string.
Variable lower : string -> string.
Variable to_float : string -> option num.
Variable format_2f : num -> string.

(** *** [ask_float] *)

Definition invalid_number : string := "Veuillez entrer un nombre valide.".

(** One turn of [while True]: [None] when the loop goes on. *)
Definition ask_float_turn (prompt : string) : io (option num) :=
  let! value := input prompt in
  let value := strip value in
  match to_float (replace_comma value) with
  | Some x => io_ret (Some x)
  | None => let! _ := print invalid_number in io_ret None
  end.

(** The loop ends by [return] or by the [EOFError] of [input]; every turn
    that goes on has read a line, so the lines left bound the turns, and
    with no line left the next [input] raises. *)
Fixpoint ask_float_loop (prompt : string) (turns : nat) : io num :=
  match turns with
  | O => let! _ := input prompt in io_ret lit_0
  | S turns' =>
      let! answer := ask_float_turn prompt in
      match answer with
      | Some x => io_ret x
      | None => ask_float_loop prompt turns'
      end
  end.

Definition ask_float (prompt : string) : io num :=
  fun w => ask_float_loop prompt (length (stdin w)) w.

(** *** [ask_list] *)

Definition ask_list (prompt : string) : io (list string) :=
  let! raw := input prompt in
  let raw := lower (strip raw) in
  if is_empty raw then io_ret []
  else
    io_ret (map strip
              (List.filter (fun item => negb (is_empty (strip item)))
                           (split_comma raw))).

(** *** [collect_student_profile] *)

Definition subjects : list string :=
  ["maths"; "physique"; "svt"; "francais"; "philo"; "langues"].

Definition invalid_grade : string :=
  "Valeur invalide, note ignorée pour cette matière.".

(** The loop [for subject in subjects], on the dict [grades]. *)
Fixpoint ask_grades (subjects : list string) (grades : gmap string num)
    : io (gmap string num) :=
  match subjects with
  | [] => io_ret grades
  | subject :: subjects' =>
      let! raw := input ("- " ++ subject ++ " : ") in
      let raw := strip raw in
      if is_empty raw then ask_grades subjects' grades
      else
        match to_float (replace_comma raw) with
        | Some grade => ask_grades subjects' (<[subject := grade]> grades)
        | None =>
            let! _ := print invalid_grade in
            ask_grades subjects' grades
        end
  end.

Definition interests_prompt : string :=
  nl ++ "Centres d'intérêt (informatique, biologie, économie, arts, etc.) "
     ++ nl ++ "Préfèrence: ".

Definition aspirations_prompt : string :=
  nl ++ "Idées de métiers / domaines visés (ingénieur, médecin, enseignant, etc.) "
     ++ nl ++ "Préfèrence : ".

Definition collect_student_profile : io (StudentProfile num) :=
  let! _ := print "=== ORIENTAI : PROFIL ÉLÈVE ===" in
  let! name := input "Nom de l'élève : " in
  let name := strip name in
  let! _ :=
    print (nl ++ "Entrez les notes de l'élève (0 à 20). Laissez vide si pas de note :") in
  let! grades := ask_grades subjects ∅ in
  let! interests := ask_list interests_prompt in
  let! aspirations := ask_list aspirations_prompt in
  io_ret {| student_name := name;
            grades := grades;
            interests := interests;
            aspirations := aspirations |}.

(** *** [main] *)

(** One turn of [for prog, score in recommendations]. *)
Definition print_recommendation (entry : Program num * num) : io unit :=
  let '(prog, score) := entry in
  let! _ := print ("- " ++ program_name prog ++ " (" ++ domain prog ++ ")") in
  let! _ := print ("  Score d'adéquation : " ++ format_2f score) in
  print ("  Tags : " ++ String.concat ", " (tags prog) ++ nl).

Definition main : io unit :=
  let programs := build_example_programs in
  let! student := collect_student_profile in
  let! _ := print (nl ++ "=== CALCUL DES RECOMMANDATIONS ===") in
  let! recommendations := io_lift (recommend_programs student programs 3) in
  let! _ :=
    print (nl ++ "Meilleures recommandations pour " ++ student_name student
              ++ " :" ++ nl) in
  io_for_each print_recommendation recommendations.

End Console.

(** * Auxiliary definitions *)

Local Open Scope Q_scope.

(** The value one turn of the loop appends: the student's grade [g] against
    the requirement [r]. *)
Definition grade_of (student : StudentProfile Q) (subject : string) : Q :=
  default 0 (grades student !! subject).

Definition term (g r : Q) : Q :=
  py_max 0 (py_min 1 ((1 # 2) + (g - r) / (10 # 1))).

Definition Qsum (l : list Q) : Q := fold_right Qplus 0 l.

(** The three components and the score, as the values [score_for] returns. *)
Definition term_of (student : StudentProfile Q) (item : string * Q) : Q :=
  term (grade_of student item.1) item.2.

Definition grade_value (self : Program Q) (student : StudentProfile Q) : Q :=
  match min_grades self with
  | [] => 0
  | _ :: _ =>
      py_sum (map (term_of student) (min_grades self))
      / inject_Z (Z.of_nat (length (min_grades self)))
  end.

Definition interest_value (self : Program Q) (student : StudentProfile Q) : Q :=
  match tags self with
  | [] => 0
  | _ :: _ =>
      inject_Z (Z.of_nat (size (common (tags self) (interests student))))
      / inject_Z (Z.of_nat (length (tags self)))
  end.

Definition score_value (self : Program Q) (student : StudentProfile Q) : Q :=
  (6 # 10) * grade_value self student
  + (25 # 100) * interest_value self student
  + (15 # 100) * aspiration_score self student.

(** [x] may stand directly before [y] in a list sorted by falling key. *)
Definition falls {A} (key : A -> Q) (x y : A) : Prop := key y <= key x.

(** The items whose key equals [v], in their order in the list. *)
Definition with_key {A} (key : A -> Q) (v : Q) (l : list A) : list A :=
  List.filter (fun x => Qeq_bool (key x) v) l.

(** ** The formula in the words of the specification *)

Module Spec.

Definition clamp (x lo hi : Q) : Q :=
  if Qlt_le_dec x lo then lo else if Qlt_le_dec hi x then hi else x.

Definition mean (l : list Q) : Q := Qsum l / inject_Z (Z.of_nat (length l)).

Definition student_grade (student : StudentProfile Q) (subject : string) : Q :=
  match grades student !! subject with
  | Some g => g
  | None => 0
  end.

Definition normalized (student : StudentProfile Q) (entry : string * Q) : Q :=
  clamp ((1 # 2) + (student_grade student entry.1 - entry.2) / (10 # 1)) 0 1.

Definition grade_score (program : Program Q) (student : StudentProfile Q) : Q :=
  match min_grades program with
  | [] => 0
  | entries => mean (map (normalized student) entries)
  end.

Definition interest_score (program : Program Q) (student : StudentProfile Q) : Q :=
  match tags program with
  | [] => 0
  | ts =>
      let tag_set : gset string := list_to_set ts in
      let interest_set : gset string := list_to_set (interests student) in
      inject_Z (Z.of_nat (size (tag_set ∩ interest_set)))
      / inject_Z (Z.of_nat (length ts))
  end.

Definition aspiration_score (program : Program Q) (student : StudentProfile Q) : Q :=
  let tag_set : gset string := list_to_set (tags program) in
  let aspiration_set : gset string := list_to_set (aspirations student) in
  if decide (tag_set ∩ aspiration_set = ∅) then 0 else 1.

Definition score (program : Program Q) (student : StudentProfile Q) : Q :=
  (60 # 100) * grade_score program student
  + (25 # 100) * interest_score program student
  + (15 # 100) * aspiration_score program student.

End Spec.

Section FieldsRead.
Context {num : Type} `{PyNum num}.

Definition same_student (s s' : StudentProfile num) : Prop :=
  grades s = grades s' /\ interests s = interests s' /\
  aspirations s = aspirations s'.

Definition same_program (p p' : Program num) : Prop :=
  min_grades p = min_grades p' /\ tags p = tags p'.

Definition same_entry (x y : Program num * num) : Prop :=
  same_program x.1 y.1 /\ x.2 = y.2.

Definition same_result {A} (R : A -> A -> Prop) (r r' : result A) : Prop :=
  match r, r' with
  | Ok a, Ok a' => R a a'
  | Raise e, Raise e' => e = e'
  | _, _ => False
  end.
End FieldsRead.

Definition scored_catalog (student : StudentProfile Q)
    (programs : list (Program Q)) : list (Program Q * Q) :=
  map (fun p => (p, score_value p student)) programs.

Definition low_student : StudentProfile Q := {|
  student_name := "sans notes";
  grades := ∅;
  interests := interests (num:=Q) example_student;
  aspirations := aspirations (num:=Q) example_student
|}.

Definition renamed_student : StudentProfile Q := {|
  student_name := "un autre nom";
  grades := grades (num:=Q) example_student;
  interests := interests (num:=Q) example_student;
  aspirations := aspirations (num:=Q) example_student
|}.

Definition relabel (p : Program Q) : Program Q := {|
  program_id := "x";
  program_name := "y";
  domain := "z";
  min_grades := min_grades p;
  tags := tags p
|}.

(** ** Further inputs for the laws at work *)

Definition with_zero_svt : StudentProfile Q := {|
  student_name := student_name (num:=Q) example_student;
  grades := <["svt" := lit_0]> (grades (num:=Q) example_student);
  interests := interests (num:=Q) example_student;
  aspirations := aspirations (num:=Q) example_student
|}.

Definition keen_student : StudentProfile Q := {|
  student_name := "curieux";
  grades := grades (num:=Q) example_student;
  interests := ["algorithmes"; "informatique"; "programmation"; "algorithmes"];
  aspirations := ["informatique"; "ingénieur"]
|}.

Definition shuffled_student : StudentProfile Q := {|
  student_name := "le même";
  grades := grades (num:=Q) example_student;
  interests := ["algorithmes"; "informatique"; "algorithmes"];
  aspirations := ["ingénieur"; "ingénieur"]
|}.

Definition perfect_student : StudentProfile Q := {|
  student_name := "major";
  grades := <["maths" := 19%Q]>
            (<["physique" := 17%Q]> (<["francais" := 15%Q]> ∅));
  interests := tags (num:=Q) ing_info;
  aspirations := ["informatique"]
|}.

Definition stranger : StudentProfile Q := {|
  student_name := "inconnu";
  grades := ∅;
  interests := [];
  aspirations := []
|}.

Definition no_prerequisites : Program Q := {|
  program_id := "libre";
  program_name := "Parcours libre";
  domain := "Divers";
  min_grades := [];
  tags := ["informatique"]
|}.

Definition no_tags : Program Q := {|
  program_id := "anonyme";
  program_name := "Sans mots-clés";
  domain := "Divers";
  min_grades := [("maths", 10%Q)];
  tags := []
|}.

Definition blank_program : Program Q := {|
  program_id := "vide";
  program_name := "Vide";
  domain := "Divers";
  min_grades := [];
  tags := []
|}.

Definition ing_info_reordered : Program Q := {|
  program_id := "ing_info";
  program_name := program_name (num:=Q) ing_info;
  domain := "Informatique";
  min_grades := [("francais", 10%Q); ("maths", 14%Q); ("physique", 12%Q)];
  tags := tags (num:=Q) ing_info
|}.

Definition nan_student : StudentProfile float := {|
  student_name := "nan";
  grades := {["maths" := PrimFloat.nan]};
  interests := [];
  aspirations := []
|}.

(** ** What the console part computes from the lines it reads *)

Section Answers.
Context {num : Type} `{PyNum num}.
Variable strip : string -> string.
Variable lower : string -> string.
Variable to_float : string -> option num.
Variable format_2f : num -> string.

(** The keywords [ask_list] makes of the line it reads. *)
Definition keywords (line : string) : list string :=
  let raw := lower (strip line) in
  if is_empty raw then []
  else map strip
         (List.filter (fun item => negb (is_empty (strip item)))
                      (split_comma raw)).

(** The grade the loop of [collect_student_profile] makes of a line:
    [None] for a blank line and for a line that is no number. *)
Definition parse_grade (line : string) : option num :=
  let raw := strip line in
  if is_empty raw then None else to_float (replace_comma raw).

(** The dict after the loop has read [lines] for [subjects]. *)
Fixpoint record_grades (subjects lines : list string)
    (grades : gmap string num) : gmap string num :=
  match subjects, lines with
  | subject :: subjects', line :: lines' =>
      record_grades subjects' lines'
        (match parse_grade line with
         | Some grade => <[subject := grade]> grades
         | None => grades
         end)
  | _, _ => grades
  end.

(** The three texts [main] prints for one recommendation. *)
Definition report (entry : Program num * num) : list string :=
  [("- " ++ program_name entry.1 ++ " (" ++ domain entry.1 ++ ")")%string;
   ("  Score d'adéquation : " ++ format_2f entry.2)%string;
   ("  Tags : " ++ String.concat ", " (tags entry.1) ++ nl)%string].

End Answers.

(** The texts [ask_float] writes while it rejects the lines [bad]. *)
Definition rejections (prompt : string) (bad : list string) : list string :=
  flat_map (fun _ => [prompt; invalid_number]) bad.

(** The two texts [main] prints between the profile and the ranking. *)
Definition headings (name : string) : list string :=
  [(nl ++ "=== CALCUL DES RECOMMANDATIONS ===")%string;
   (nl ++ "Meilleures recommandations pour " ++ name ++ " :" ++ nl)%string].

(** The characters of a text. *)
Fixpoint has_char (c : ascii) (s : string) : Prop :=
  match s with
  | EmptyString => False
  | String c' s' => c = c' \/ has_char c s'
  end.

(** Builtins to run the console part on: no stripping, no case folding,
    a [float] that reads the numbers 0 to 20 written without sign, point
    or exponent, and nothing else, and a format that writes a fraction. *)
Definition plain (s : string) : string := s.

Definition small_number (s : string) : option Q :=
  match List.find (fun n => String.eqb s (pretty n)) (seq 0 21) with
  | Some n => Some (inject_Z (Z.of_nat n))
  | None => None
  end.

Definition as_fraction (q : Q) : string :=
  (pretty (Qnum q) ++ "/" ++ pretty (Z.pos (Qden q)))%string.

Definition lower_blank_line : string := plain (plain "").

Definition session : list string :=
  ["  Ada "; "16"; "14"; ""; "12"; "abc"; "";
   "informatique,algorithmes"; "ingénieur"; "extra"].

Definition tied_entries : list (string * Q) :=
  [("a", 1%Q); ("b", 2%Q); ("c", 1%Q)].

(** * Laws *)

(** ** Facts that hold for any numbers *)

Section Generic.
Context {num : Type} `{PyNum num}.

Lemma for_each_map {A B} (body : A -> result B) (f : A -> B) (l : list A) :
  (forall x, body x = Ok (f x)) -> for_each body l = Ok (map f l).
Proof.
  intros Hbody. induction l as [|x l IH]; simpl; [reflexivity|].
  rewrite Hbody, IH. reflexivity.
Qed.

Lemma length_insert_desc {A} (key : A -> num) x l :
  length (insert_desc key x l) = S (length l).
Proof.
  induction l as [|y l IH]; simpl; [reflexivity|].
  destruct (num_ltb (key x) (key y)); simpl; [now rewrite IH | reflexivity].
Qed.

Lemma length_sort_reverse {A} (key : A -> num) l :
  length (sort_reverse key l) = length l.
Proof.
  induction l as [|x l IH]; simpl; [reflexivity|].
  now rewrite length_insert_desc, IH.
Qed.

Lemma insert_desc_perm {A} (key : A -> num) x l :
  Permutation (x :: l) (insert_desc key x l).
Proof.
  induction l as [|y l IH]; simpl; [reflexivity|].
  destruct (num_ltb (key x) (key y)); [|reflexivity].
  rewrite <- IH. apply perm_swap.
Qed.

Lemma sort_reverse_perm {A} (key : A -> num) l :
  Permutation l (sort_reverse key l).
Proof.
  induction l as [|x l IH]; simpl; [reflexivity|].
  rewrite <- insert_desc_perm. now constructor.
Qed.

Lemma length_slice_to {A} (l : list A) (k : Z) :
  length (slice_to l k) =
  if (0 <=? k)%Z then Nat.min (Z.to_nat k) (length l)
  else (length l - Z.to_nat (- k))%nat.
Proof.
  unfold slice_to. destruct (0 <=? k)%Z eqn:E; rewrite length_firstn.
  - reflexivity.
  - apply Z.leb_gt in E. lia.
Qed.

Lemma slice_to_prefix {A} (l : list A) (k : Z) : slice_to l k `prefix_of` l.
Proof.
  unfold slice_to. destruct (0 <=? k)%Z; eexists; symmetry; apply firstn_skipn.
Qed.
End Generic.

(** ** Exact arithmetic: the order and the divisors *)

Local Open Scope Q_scope.

Lemma Q_ltb_lt (x y : Q) : num_ltb x y = true <-> x < y.
Proof.
  cbn. rewrite negb_true_iff. split.
  - intros E. apply Qnot_le_lt. intros Hle.
    apply Qle_bool_iff in Hle. congruence.
  - intros Hlt. destruct (Qle_bool y x) eqn:E; [|reflexivity].
    apply Qle_bool_iff in E. lra.
Qed.

Lemma Q_ltb_ge (x y : Q) : num_ltb x y = false <-> y <= x.
Proof.
  cbn. rewrite negb_false_iff. apply Qle_bool_iff.
Qed.

Lemma Q_len_nonzero (n : nat) :
  num_is_zero (num:=Q) (num_of_nat (S n)) = false.
Proof.
  change (Qeq_bool (inject_Z (Z.of_nat (S n))) 0 = false).
  apply not_true_iff_false. intros E.
  apply Qeq_bool_eq in E. unfold Qeq in E. cbn -[Z.of_nat] in E. lia.
Qed.

Lemma Q_truediv_len (x : Q) (n : nat) :
  py_truediv x (num_of_nat (S n)) = Ok (x / inject_Z (Z.of_nat (S n))).
Proof. unfold py_truediv. now rewrite Q_len_nonzero. Qed.

Lemma Q_len_pos (n : nat) : 0 < inject_Z (Z.of_nat (S n)).
Proof. unfold Qlt. cbn -[Z.of_nat]. lia. Qed.

Lemma Q_len_le (m n : nat) :
  (m <= n)%nat -> inject_Z (Z.of_nat m) <= inject_Z (Z.of_nat n).
Proof. intros Hmn. rewrite <- Zle_Qle. lia. Qed.


Lemma normalized_grade_term student subject r :
  normalized_grade student (subject, r) = Ok (term (grade_of student subject) r).
Proof. reflexivity. Qed.

Lemma py_min_max_cases (x : Q) :
  (x <= 0 /\ py_max 0 (py_min 1 x) = 0) \/
  (0 < x < 1 /\ py_max 0 (py_min 1 x) = x) \/
  (1 <= x /\ py_max 0 (py_min 1 x) = 1).
Proof.
  unfold py_min, py_max.
  destruct (num_ltb x 1) eqn:E1.
  - apply Q_ltb_lt in E1. destruct (num_ltb 0 x) eqn:E0.
    + apply Q_ltb_lt in E0. right; left. split; [lra | reflexivity].
    + apply Q_ltb_ge in E0. left. split; [lra | reflexivity].
  - apply Q_ltb_ge in E1. right; right. split; [lra | reflexivity].
Qed.

Lemma term_range g r : 0 <= term g r <= 1.
Proof.
  unfold term.
  destruct (py_min_max_cases ((1 # 2) + (g - r) / (10 # 1)))
    as [[? ->]|[[? ->]|[? ->]]]; lra.
Qed.

Lemma term_mono g1 g2 r : g2 <= g1 -> term g2 r <= term g1 r.
Proof.
  intros Hg. unfold term.
  assert ((1 # 2) + (g2 - r) / (10 # 1) <= (1 # 2) + (g1 - r) / (10 # 1))
    by (unfold Qdiv; change (/ (10 # 1)) with (1 # 10); lra).
  destruct (py_min_max_cases ((1 # 2) + (g1 - r) / (10 # 1)))
    as [[? ->]|[[? ->]|[? ->]]];
  destruct (py_min_max_cases ((1 # 2) + (g2 - r) / (10 # 1)))
    as [[? ->]|[[? ->]|[? ->]]]; lra.
Qed.

(** ** Exact arithmetic: sums and the three components *)


Lemma fold_left_Qplus (l : list Q) (a : Q) : fold_left Qplus l a == a + Qsum l.
Proof.
  revert a. induction l as [|x l IH]; intros a; simpl; [lra|].
  rewrite IH. lra.
Qed.

Lemma py_sum_Qsum (l : list Q) : py_sum l == Qsum l.
Proof. unfold py_sum. cbn [num_add lit_0 Q_num]. rewrite fold_left_Qplus. lra. Qed.

Lemma Q_len_succ (n : nat) :
  inject_Z (Z.of_nat (S n)) == inject_Z (Z.of_nat n) + 1.
Proof. rewrite Nat2Z.inj_succ, <- Z.add_1_r, inject_Z_plus. reflexivity. Qed.

Lemma Qsum_range {A} (f : A -> Q) (l : list A) :
  (forall x, 0 <= f x <= 1) ->
  0 <= Qsum (map f l) <= inject_Z (Z.of_nat (length l)).
Proof.
  intros Hf. induction l as [|x l IH].
  - change (0 <= 0 <= 0). lra.
  - change (Qsum (map f (x :: l))) with (f x + Qsum (map f l)).
    cbn [length]. rewrite Q_len_succ. specialize (Hf x). lra.
Qed.

Lemma Qsum_mono {A} (f g : A -> Q) (l : list A) :
  (forall x, f x <= g x) -> Qsum (map f l) <= Qsum (map g l).
Proof.
  intros Hfg. induction l as [|x l IH]; [simpl; lra|].
  change (f x + Qsum (map f l) <= g x + Qsum (map g l)).
  specialize (Hfg x). lra.
Qed.

Lemma size_common_le (a b : list string) : (size (common a b) <= length a)%nat.
Proof.
  unfold size, set_size. cbn [mbind option_bind].
  apply submseteq_length, NoDup_submseteq; [apply NoDup_elements|].
  intros x Hx. apply elem_of_elements in Hx. unfold common in Hx.
  apply elem_of_intersection in Hx as [Hx _].
  now apply elem_of_list_to_set in Hx.
Qed.


Lemma grade_score_value self student :
  grade_score self student = Ok (grade_value self student).
Proof.
  unfold grade_score, grade_value.
  destruct (min_grades self) as [|item items]; [reflexivity|].
  rewrite (for_each_map _ (term_of student)).
  - cbn [bind]. rewrite length_map. apply Q_truediv_len.
  - intros [subject r]. apply normalized_grade_term.
Qed.

Lemma interest_score_value self student :
  interest_score self student = Ok (interest_value self student).
Proof.
  unfold interest_score, interest_value.
  destruct (tags self) as [|t ts]; [reflexivity|]. apply Q_truediv_len.
Qed.

Lemma score_for_value self student :
  score_for self student = Ok (score_value self student).
Proof.
  unfold score_for. rewrite grade_score_value, interest_score_value.
  reflexivity.
Qed.

Lemma grade_value_range self student : 0 <= grade_value self student <= 1.
Proof.
  unfold grade_value. destruct (min_grades self) as [|item items] eqn:E; [lra|].
  rewrite <- E. rewrite py_sum_Qsum.
  assert (Hpos : 0 < inject_Z (Z.of_nat (length (min_grades self))))
    by (rewrite E; apply Q_len_pos).
  pose proof (Qsum_range (term_of student) (min_grades self)
                (fun x => term_range _ _)) as [Hlo Hhi].
  split.
  - apply Qle_shift_div_l; [exact Hpos | lra].
  - apply Qle_shift_div_r; [exact Hpos | lra].
Qed.

Lemma interest_value_range self student : 0 <= interest_value self student <= 1.
Proof.
  unfold interest_value. destruct (tags self) as [|t ts] eqn:E; [lra|].
  rewrite <- E.
  assert (Hpos : 0 < inject_Z (Z.of_nat (length (tags self))))
    by (rewrite E; apply Q_len_pos).
  pose proof (size_common_le (tags self) (interests student)) as Hle.
  apply Q_len_le in Hle.
  assert (0 <= inject_Z (Z.of_nat (size (common (tags self) (interests student)))))
    by (rewrite <- (Zle_Qle 0); lia).
  split.
  - apply Qle_shift_div_l; [exact Hpos | lra].
  - apply Qle_shift_div_r; [exact Hpos | lra].
Qed.

Lemma aspiration_score_cases (self : Program Q) (student : StudentProfile Q) :
  aspiration_score self student = 0 \/ aspiration_score self student = 1.
Proof.
  unfold aspiration_score.
  destruct (size (common (tags self) (aspirations student)) =? 0)%nat; auto.
Qed.

Lemma score_value_range self student : 0 <= score_value self student <= 1.
Proof.
  unfold score_value.
  pose proof (grade_value_range self student).
  pose proof (interest_value_range self student).
  destruct (aspiration_score_cases self student) as [-> | ->]; lra.
Qed.

Lemma grade_value_mono self s1 s2 :
  (forall subject, grade_of s2 subject <= grade_of s1 subject) ->
  grade_value self s2 <= grade_value self s1.
Proof.
  intros Hg. unfold grade_value.
  destruct (min_grades self) as [|item items] eqn:E; [lra|].
  rewrite <- E. rewrite !py_sum_Qsum.
  assert (Hpos : 0 < inject_Z (Z.of_nat (length (min_grades self))))
    by (rewrite E; apply Q_len_pos).
  apply Qmult_le_compat_r.
  - apply Qsum_mono. intros x. apply term_mono, Hg.
  - apply Qlt_le_weak, Qinv_lt_0_compat, Hpos.
Qed.

(** ** Exact arithmetic: the sort *)

Section SortQ.
Context {A : Type} (key : A -> Q).



Lemma insert_desc_HdRel x y l :
  falls key y x -> HdRel (falls key) y l ->
  HdRel (falls key) y (insert_desc key x l).
Proof.
  intros Hyx Hy. destruct l as [|z l]; cbn [insert_desc]; [now constructor|].
  destruct (num_ltb (key x) (key z)); constructor; [|exact Hyx].
  now inversion Hy.
Qed.

Lemma insert_desc_sorted x l :
  Sorted (falls key) l -> Sorted (falls key) (insert_desc key x l).
Proof.
  induction 1 as [|y l Hl IH Hy]; cbn [insert_desc]; [repeat constructor|].
  destruct (num_ltb (key x) (key y)) eqn:E.
  - apply Q_ltb_lt in E. constructor; [exact IH|].
    apply insert_desc_HdRel; [unfold falls; lra | exact Hy].
  - apply Q_ltb_ge in E. repeat constructor; assumption.
Qed.

Lemma sort_reverse_sorted l : Sorted (falls key) (sort_reverse key l).
Proof.
  induction l as [|x l IH]; cbn [sort_reverse]; [constructor|].
  now apply insert_desc_sorted.
Qed.

Lemma sorted_adjacent l i x y :
  Sorted (falls key) l -> l !! i = Some x -> l !! S i = Some y -> falls key x y.
Proof.
  intros Hl. revert i. induction Hl as [|z l Hl IH Hz]; intros i Hx Hy.
  - discriminate.
  - destruct i as [|i]; simpl in Hx, Hy.
    + injection Hx as ->. destruct l as [|w l]; [discriminate|].
      injection Hy as ->. now inversion Hz.
    + exact (IH i Hx Hy).
Qed.

Lemma with_key_insert_desc v x l :
  with_key key v (insert_desc key x l) = with_key key v (x :: l).
Proof.
  unfold with_key. induction l as [|y l IH]; [reflexivity|].
  cbn [insert_desc]. destruct (num_ltb (key x) (key y)) eqn:E; [|reflexivity].
  apply Q_ltb_lt in E. cbn [List.filter] in *. rewrite IH.
  destruct (Qeq_bool (key x) v) eqn:Ex, (Qeq_bool (key y) v) eqn:Ey;
    try reflexivity.
  apply Qeq_bool_eq in Ex, Ey. lra.
Qed.

Lemma with_key_sort_reverse v l :
  with_key key v (sort_reverse key l) = with_key key v l.
Proof.
  induction l as [|x l IH]; [reflexivity|].
  cbn [sort_reverse]. rewrite with_key_insert_desc.
  unfold with_key in *. cbn [List.filter]. now rewrite IH.
Qed.

Lemma with_key_prefix v (l1 l2 : list A) :
  l1 `prefix_of` l2 -> with_key key v l1 `prefix_of` with_key key v l2.
Proof.
  intros [l ->]. unfold with_key. rewrite List.filter_app. now eexists.
Qed.

(** An item that survives the filter sits in the list, and the filter
    splits around it. *)
Lemma filter_occurrence (f : A -> bool) (m a rest : list A) (x : A) :
  List.filter f m = a ++ x :: rest ->
  exists m1 m2, m = m1 ++ x :: m2 /\
                List.filter f m1 = a /\ List.filter f m2 = rest.
Proof.
  revert a. induction m as [|z m IH]; intros a Hm.
  - destruct a; discriminate.
  - cbn [List.filter] in Hm. destruct (f z) eqn:Ez.
    + destruct a as [|a0 a].
      * injection Hm as -> Hm. exists [], m. cbn [List.filter]. auto.
      * injection Hm as -> Hm. destruct (IH a Hm) as (m1 & m2 & -> & H1 & H2).
        exists (a0 :: m1), m2. cbn [List.filter]. rewrite Ez, H1. auto.
    + destruct (IH a Hm) as (m1 & m2 & -> & H1 & H2).
      exists (z :: m1), m2. cbn [List.filter]. rewrite Ez. auto.
Qed.

(** Stability, item by item: of two items with equal keys, the one that
    comes first after the sort (or in a prefix of it) came first before. *)
Lemma prefix_sort_keeps_order (l out : list A) l1 l2 l3 x y :
  out `prefix_of` sort_reverse key l ->
  out = l1 ++ x :: l2 ++ y :: l3 ->
  key x == key y ->
  exists m1 m2 m3, l = m1 ++ x :: m2 ++ y :: m3.
Proof.
  intros Hpre -> Hxy.
  apply (with_key_prefix (key x)) in Hpre.
  rewrite with_key_sort_reverse in Hpre. destruct Hpre as [tl Htl].
  unfold with_key in Htl.
  rewrite List.filter_app in Htl. cbn [List.filter] in Htl.
  rewrite List.filter_app in Htl. cbn [List.filter] in Htl.
  assert (Ex : Qeq_bool (key x) (key x) = true) by (apply Qeq_bool_iff; lra).
  assert (Ey : Qeq_bool (key y) (key x) = true) by (apply Qeq_bool_iff; lra).
  rewrite Ex, Ey in Htl. rewrite <- !app_assoc in Htl. cbn [app] in Htl.
  rewrite <- !app_assoc in Htl. cbn [app] in Htl.
  apply filter_occurrence in Htl as (m1 & m' & -> & _ & Hm').
  apply filter_occurrence in Hm' as (m2 & m3 & -> & _ & _).
  now exists m1, m2, m3.
Qed.
End SortQ.


Lemma term_clamp g r :
  term g r == Spec.clamp ((1 # 2) + (g - r) / (10 # 1)) 0 1.
Proof.
  unfold term, Spec.clamp.
  destruct (py_min_max_cases ((1 # 2) + (g - r) / (10 # 1)))
    as [[? ->]|[[? ->]|[? ->]]];
  destruct (Qlt_le_dec _ 0); try lra; destruct (Qlt_le_dec 1 _); lra.
Qed.

Lemma Qsum_ext {A} (f g : A -> Q) (l : list A) :
  (forall x, f x == g x) -> Qsum (map f l) == Qsum (map g l).
Proof.
  intros Hfg. induction l as [|x l IH]; [reflexivity|].
  change (f x + Qsum (map f l) == g x + Qsum (map g l)).
  now rewrite IH, Hfg.
Qed.

Lemma grade_value_spec self student :
  grade_value self student == Spec.grade_score self student.
Proof.
  unfold grade_value, Spec.grade_score, Spec.mean.
  destruct (min_grades self) as [|item items]; [reflexivity|].
  rewrite py_sum_Qsum, length_map.
  apply Qmult_comp; [|reflexivity].
  apply Qsum_ext. intros [subject r]. apply term_clamp.
Qed.

Lemma interest_value_spec self student :
  interest_value self student = Spec.interest_score self student.
Proof.
  unfold interest_value, Spec.interest_score, common.
  destruct (tags self); reflexivity.
Qed.

Lemma aspiration_score_spec (self : Program Q) (student : StudentProfile Q) :
  aspiration_score self student = Spec.aspiration_score self student.
Proof.
  unfold aspiration_score, Spec.aspiration_score, common. cbn zeta.
  destruct (decide (_ = ∅)) as [E|E].
  - rewrite E, size_empty. reflexivity.
  - destruct (Nat.eqb_spec (size (list_to_set (tags self) ∩
        list_to_set (aspirations student) : gset string)) 0) as [E0|E0];
      [|reflexivity].
    apply size_empty_iff in E0. apply leibniz_equiv in E0. contradiction.
Qed.

(** ** The fields the score reads *)

Section Fields.
Context {num : Type} `{PyNum num}.


Lemma for_each_ext {A B} (f g : A -> result B) (l : list A) :
  (forall x, f x = g x) -> for_each f l = for_each g l.
Proof.
  intros Hfg. induction l as [|x l IH]; simpl; [reflexivity|].
  now rewrite Hfg, IH.
Qed.

Lemma score_for_same p p' s s' :
  same_program p p' -> same_student s s' -> score_for p s = score_for p' s'.
Proof.
  intros [Hm Ht] (Hg & Hi & Ha).
  unfold score_for, grade_score, interest_score, aspiration_score.
  rewrite Hm, Ht, Hi, Ha.
  rewrite (for_each_ext (normalized_grade s) (normalized_grade s')).
  - reflexivity.
  - intros [subject r]. unfold normalized_grade. now rewrite Hg.
Qed.

Lemma scored_same s s' ps ps' :
  same_student s s' -> Forall2 same_program ps ps' ->
  same_result (Forall2 same_entry)
    (for_each (fun p => let* v := score_for p s in Ok (p, v)) ps)
    (for_each (fun p => let* v := score_for p s' in Ok (p, v)) ps').
Proof.
  intros Hs Hps. induction Hps as [|p p' ps ps' Hp Hps IH]; simpl.
  - constructor.
  - rewrite (score_for_same p p' s s' Hp Hs).
    destruct (score_for p' s') as [v|e]; simpl; [|reflexivity].
    destruct (for_each _ ps) as [l|e], (for_each _ ps') as [l'|e'];
      simpl in *; try contradiction; [|exact IH].
    constructor; [split; [exact Hp | reflexivity] | exact IH].
Qed.

Lemma insert_desc_same x x' l l' :
  same_entry x x' -> Forall2 same_entry l l' ->
  Forall2 same_entry (insert_desc snd x l) (insert_desc snd x' l').
Proof.
  intros Hx Hl. induction Hl as [|y y' l l' Hy Hl IH]; simpl.
  - constructor; [exact Hx | constructor].
  - pose proof Hx as [_ Hx2]. pose proof Hy as [_ Hy2].
    rewrite <- Hx2, <- Hy2.
    destruct (num_ltb x.2 y.2).
    + constructor; [exact Hy | exact IH].
    + constructor; [exact Hx|]. constructor; [exact Hy | exact Hl].
Qed.

Lemma sort_reverse_same l l' :
  Forall2 same_entry l l' ->
  Forall2 same_entry (sort_reverse snd l) (sort_reverse snd l').
Proof.
  induction 1; simpl; [constructor|]. now apply insert_desc_same.
Qed.

Lemma slice_to_same (l l' : list (Program num * num)) k :
  Forall2 same_entry l l' -> Forall2 same_entry (slice_to l k) (slice_to l' k).
Proof.
  intros Hl. unfold slice_to. rewrite (Forall2_length _ _ _ Hl).
  destruct (0 <=? k)%Z; now apply Forall2_take.
Qed.

Lemma recommend_programs_same s s' ps ps' k :
  same_student s s' -> Forall2 same_program ps ps' ->
  same_result (Forall2 same_entry)
    (recommend_programs s ps k) (recommend_programs s' ps' k).
Proof.
  intros Hs Hps. unfold recommend_programs.
  pose proof (scored_same s s' ps ps' Hs Hps) as Hsc.
  destruct (for_each _ ps) as [l|e], (for_each _ ps') as [l'|e'];
    simpl in *; try contradiction; [|exact Hsc].
  now apply slice_to_same, sort_reverse_same.
Qed.
End Fields.

(** ** The ranking on exact scores *)


Lemma for_each_scored student programs :
  for_each (fun p => let* s := score_for p student in Ok (p, s)) programs
  = Ok (scored_catalog student programs).
Proof.
  apply for_each_map. intros p. now rewrite score_for_value.
Qed.

Lemma recommend_programs_value student programs top_k :
  recommend_programs student programs top_k
  = Ok (slice_to (sort_reverse snd (scored_catalog student programs)) top_k).
Proof.
  unfold recommend_programs. now rewrite for_each_scored.
Qed.

(** * The claims *)



(** C3, as stated, fails: a negative [top_k] does not give an empty result.
    On the example catalog, [top_k = -1] returns three entries. *)
Lemma recommend_negative_top_k :
  (-1 <= 0)%Z /\
  exists ranked,
    recommend_programs (num:=Q) example_student build_example_programs (-1)
    = Ok ranked /\ length ranked = 3%nat /\ ranked <> [].
Proof.
  split; [lia|]. eexists. split; [vm_compute; reflexivity|].
  split; [reflexivity | discriminate].
Qed.

(** C3, amended.  [recommend_programs] returns min(top_k, len(catalog))
    entries when [top_k] is not negative (none when it is 0), and
    len(catalog) - |top_k| entries, or none if that is negative, when
    [top_k] is negative; an empty catalog gives an empty result for every
    [top_k]. *)
Theorem recommend_length (student : StudentProfile Q)
    (programs : list (Program Q)) (top_k : Z) :
  (exists ranked,
     recommend_programs student programs top_k = Ok ranked /\
     length ranked =
       if (0 <=? top_k)%Z then Nat.min (Z.to_nat top_k) (length programs)
       else (length programs - Z.to_nat (- top_k))%nat) /\
  recommend_programs student [] top_k = Ok [].
Proof.
  split.
  - eexists. split; [apply recommend_programs_value|].
    rewrite length_slice_to, length_sort_reverse.
    unfold scored_catalog. now rewrite length_map.
  - rewrite recommend_programs_value. cbn [scored_catalog map sort_reverse].
    unfold slice_to. now rewrite !firstn_nil, Tauto.if_same.
Qed.




(** C8.  [score_for] and [recommend_programs] return a value on every
    input: no division raises, whatever the grade maps, the tag lists and
    the subjects the profile lacks. *)
Theorem score_for_recommend_total (self : Program Q)
    (student : StudentProfile Q) (programs : list (Program Q)) (top_k : Z) :
  (exists g, grade_score self student = Ok g) /\
  (exists i, interest_score self student = Ok i) /\
  (exists score, score_for self student = Ok score) /\
  (exists ranked, recommend_programs student programs top_k = Ok ranked).
Proof.
  repeat split; eexists.
  - apply grade_score_value.
  - apply interest_score_value.
  - apply score_for_value.
  - apply recommend_programs_value.
Qed.


(** C10.  The score reads only [min_grades] and [tags] of the program and
    [grades], [interests] and [aspirations] of the student: inputs that
    agree on these five fields get the same score, whatever the names, the
    id and the domain, and catalogs that agree entry by entry get the same
    ranking with the same scores.  This holds for every kind of number. *)
Theorem score_for_reads_five_fields {num : Type} `{PyNum num}
    (p p' : Program num) (s s' : StudentProfile num)
    (ps ps' : list (Program num)) (top_k : Z) :
  same_program p p' -> same_student s s' -> Forall2 same_program ps ps' ->
  score_for p s = score_for p' s' /\
  same_result (Forall2 same_entry)
    (recommend_programs s ps top_k) (recommend_programs s' ps' top_k).
Proof.
  intros Hp Hs Hps. split.
  - now apply score_for_same.
  - now apply recommend_programs_same.
Qed.

(** C7, as stated, fails in double precision: the score of the worked
    example is not the double nearest 0.545 but the one below it. *)
Lemma worked_example_not_0_545 :
  exists score,
    score_for (num:=float) ing_info example_student = Ok score /\
    score <> 0.545%float /\
    PrimFloat.eqb score 0.545 = false /\ PrimFloat.ltb score 0.545 = true.
Proof.
  eexists. split; [vm_compute; reflexivity|].
  split; [|split; reflexivity].
  intros E. apply (f_equal (fun x => PrimFloat.eqb x 0.545)) in E.
  vm_compute in E. discriminate.
Qed.

(** C7, amended.  For the program [ing_info] and the student of the worked
    example, [score_for] returns the double 0.5449999999999999, one unit in
    the last place below 0.545, from the grade score 0.6999999999999998,
    the interest score 0.5 and the aspiration score 0.0; in exact
    arithmetic the score is 0.545, from 0.7, 0.5 and 0. *)
Theorem worked_example :
  (score_for (num:=float) ing_info example_student
     = Ok 0x1.170a3d70a3d70p-1%float /\
   PrimFloat.next_up 0x1.170a3d70a3d70p-1 = 0.545%float /\
   grade_score (num:=float) ing_info example_student
     = Ok 0x1.6666666666665p-1%float /\
   interest_score (num:=float) ing_info example_student = Ok 0.5%float /\
   aspiration_score (num:=float) ing_info example_student = 0%float) /\
  (exists g i score,
     grade_score (num:=Q) ing_info example_student = Ok g /\ g == 7 # 10 /\
     interest_score (num:=Q) ing_info example_student = Ok i /\ i == 1 # 2 /\
     aspiration_score (num:=Q) ing_info example_student = 0 /\
     score_for (num:=Q) ing_info example_student = Ok score /\
     score == 545 # 1000).
Proof.
  split.
  - repeat split; vm_compute; reflexivity.
  - do 3 eexists. repeat split; try (vm_compute; reflexivity).
Qed.

(** ** The laws at work on the example catalog *)


Lemma Ok_inj {A} (a b : A) : Ok a = Ok b -> a = b.
Proof. intros E. now injection E. Qed.




Lemma low_student_grades subject :
  default 0 (grades low_student !! subject)
  <= default 0 (grades (num:=Q) example_student !! subject).
Proof.
  unfold low_student, example_student. cbn [grades].
  rewrite lookup_empty. cbn [default].
  destruct (decide (subject = "maths")) as [->|Hm];
    [vm_compute; discriminate|].
  rewrite lookup_insert_ne by congruence.
  destruct (decide (subject = "physique")) as [->|Hp];
    [vm_compute; discriminate|].
  rewrite lookup_insert_ne by congruence.
  destruct (decide (subject = "francais")) as [->|Hf];
    [vm_compute; discriminate|].
  rewrite lookup_insert_ne by congruence.
  rewrite lookup_empty. cbn [default]. discriminate.
Defined.


Lemma score_for_reads_five_fields_witness :
  same_program (num:=Q) ing_info (relabel ing_info) /\
  same_student example_student renamed_student /\
  Forall2 same_program build_example_programs
          (map relabel build_example_programs) /\
  score_for ing_info example_student
  = score_for (relabel ing_info) renamed_student /\
  same_result (Forall2 same_entry)
    (recommend_programs example_student build_example_programs 3)
    (recommend_programs renamed_student
       (map relabel build_example_programs) 3).
Proof.
  assert (Hp : same_program (num:=Q) ing_info (relabel ing_info))
    by (split; reflexivity).
  assert (Hs : same_student (num:=Q) example_student renamed_student)
    by (repeat split; reflexivity).
  assert (Hps : Forall2 (same_program (num:=Q)) build_example_programs
                  (map relabel build_example_programs))
    by (repeat constructor).
  split; [exact Hp|]. split; [exact Hs|]. split; [exact Hps|].
  exact (score_for_reads_five_fields ing_info (relabel ing_info)
           example_student renamed_student _ _ 3 Hp Hs Hps).
Defined.

(** * Further laws of the scoring core *)

Lemma falls_transitive {A} (key : A -> Q) : Transitive (falls key).
Proof. intros x y z Hxy Hyz. unfold falls in *. lra. Qed.

Lemma scored_catalog_entry student programs entry :
  entry ∈ scored_catalog student programs ->
  entry.1 ∈ programs /\ score_for entry.1 student = Ok entry.2.
Proof.
  unfold scored_catalog. intros Hin.
  apply list_elem_of_fmap in Hin as (p & -> & Hp).
  split; [exact Hp | apply score_for_value].
Qed.


(** X2.  Every entry of the result is a program of the catalog, paired with the
    score [score_for] gives that program. *)
Theorem recommend_entries_from_catalog (student : StudentProfile Q)
    (programs : list (Program Q)) (top_k : Z) :
  exists ranked,
    recommend_programs student programs top_k = Ok ranked /\
    Forall (fun entry => entry.1 ∈ programs /\
                         score_for entry.1 student = Ok entry.2) ranked.
Proof.
  eexists. split; [apply recommend_programs_value|].
  apply Forall_forall. intros entry Hin.
  apply scored_catalog_entry.
  rewrite (sort_reverse_perm snd (scored_catalog student programs)).
  destruct (slice_to_prefix
    (sort_reverse snd (scored_catalog student programs)) top_k)
    as [dropped Hsplit].
  rewrite Hsplit. apply elem_of_app. now left.
Qed.

(** X4.  The interests and the aspirations count as sets: profiles with the same
    grades whose interests, and whose aspirations, have the same members
    get the same score, for every kind of number. *)
Theorem score_for_keywords_as_sets {num : Type} `{PyNum num}
    (self : Program num) (s s' : StudentProfile num) :
  grades s = grades s' ->
  (forall x, x ∈ interests s <-> x ∈ interests s') ->
  (forall x, x ∈ aspirations s <-> x ∈ aspirations s') ->
  score_for self s = score_for self s'.
Proof.
  intros Hg Hi Ha.
  assert (Hci : common (tags self) (interests s)
                = common (tags self) (interests s')).
  { unfold common. f_equal. apply set_eq. intros x.
    rewrite !elem_of_list_to_set. apply Hi. }
  assert (Hca : common (tags self) (aspirations s)
                = common (tags self) (aspirations s')).
  { unfold common. f_equal. apply set_eq. intros x.
    rewrite !elem_of_list_to_set. apply Ha. }
  unfold score_for, grade_score, interest_score, aspiration_score.
  rewrite Hci, Hca.
  rewrite (for_each_ext (normalized_grade s) (normalized_grade s')).
  - reflexivity.
  - intros [subject r]. unfold normalized_grade. now rewrite Hg.
Qed.

Lemma score_for_keywords_as_sets_witness :
  score_for ing_info example_student = score_for ing_info shuffled_student.
Proof.
  apply (score_for_keywords_as_sets (num:=Q)); [reflexivity | |];
    intros x; cbn [interests aspirations example_student shuffled_student];
    rewrite !elem_of_cons, !elem_of_nil; tauto.
Defined.

(** X5.  A subject the profile lacks counts exactly as the grade 0.0 would:
    entering 0.0 for it changes no score, for every kind of number. *)
Theorem missing_subject_counts_as_zero {num : Type} `{PyNum num}
    (self : Program num) (student : StudentProfile num) (subject : string) :
  grades student !! subject = None ->
  score_for self student
  = score_for self {| student_name := student_name student;
                      grades := <[subject := lit_0]> (grades student);
                      interests := interests student;
                      aspirations := aspirations student |}.
Proof.
  intros Hnone.
  unfold score_for, grade_score, interest_score, aspiration_score.
  cbn [grades interests aspirations].
  rewrite (for_each_ext (normalized_grade student)
    (normalized_grade {| student_name := student_name student;
                         grades := <[subject := lit_0]> (grades student);
                         interests := interests student;
                         aspirations := aspirations student |})).
  - reflexivity.
  - intros [x r]. unfold normalized_grade. cbn [grades].
    destruct (decide (subject = x)) as [<-|Hne].
    + now rewrite lookup_insert_eq, Hnone.
    + now rewrite lookup_insert_ne.
Qed.

Lemma missing_subject_counts_as_zero_witness :
  grades (num:=Q) example_student !! "svt" = None /\
  score_for medecine example_student = score_for medecine with_zero_svt.
Proof.
  assert (Hnone : grades (num:=Q) example_student !! "svt" = None)
    by (vm_compute; reflexivity).
  split; [exact Hnone|].
  exact (missing_subject_counts_as_zero medecine example_student "svt" Hnone).
Defined.

(** X6.  In double precision every term of the grade loop is 0.0, 1.0 or a
    double strictly between them, whatever doubles the grade and the
    requirement are, infinities and NaN included: a term is never NaN and
    the division by 10.0 never raises. *)
Theorem normalized_grade_binary64 (student : StudentProfile float)
    (item : string * float) :
  exists t,
    normalized_grade student item = Ok t /\
    (t = 0%float \/ t = 1%float \/
     (PrimFloat.ltb 0 t = true /\ PrimFloat.ltb t 1 = true)).
Proof.
  destruct item as [subject r]. eexists. split; [reflexivity|].
  cbn [lit_0 lit_1 lit_0_5 lit_10 binary64_num num_add num_sub num_quot].
  unfold py_max, py_min. cbn [num_ltb binary64_num lit_0 lit_1].
  destruct (PrimFloat.ltb _ 1) eqn:E1.
  - destruct (PrimFloat.ltb 0 _) eqn:E0; auto.
  - right; left. reflexivity.
Qed.

(** X7.  In double precision a NaN, as the student's grade or as the required
    grade, gives the term 1.0: the comparison in [min] fails and the bound
    1.0 is kept. *)
Theorem nan_grade_scores_full (student : StudentProfile float)
    (subject : string) (required_grade : float) :
  default 0%float (grades student !! subject) = nan \/ required_grade = nan ->
  normalized_grade student (subject, required_grade) = Ok 1%float.
Proof.
  intros Hnan.
  assert (Hdiff : Prim2SF (default 0%float (grades student !! subject)
                           - required_grade) = S754_nan).
  { rewrite sub_spec. destruct Hnan as [-> | ->].
    - reflexivity.
    - change (Prim2SF nan) with S754_nan.
      now destruct (Prim2SF (default 0%float (grades student !! subject))). }
  assert (Hquot : Prim2SF ((default 0%float (grades student !! subject)
                            - required_grade) / 10) = S754_nan)
    by (rewrite div_spec, Hdiff; reflexivity).
  assert (Hsum : Prim2SF (0.5 + (default 0%float (grades student !! subject)
                                 - required_grade) / 10) = S754_nan)
    by (rewrite add_spec, Hquot; reflexivity).
  assert (Hlt : PrimFloat.ltb
                  (0.5 + (default 0%float (grades student !! subject)
                          - required_grade) / 10) 1 = false)
    by (rewrite ltb_spec, Hsum; reflexivity).
  unfold normalized_grade, py_truediv.
  cbn [lit_0 lit_1 lit_0_5 lit_10 binary64_num num_add num_sub num_quot
       num_is_zero bind].
  change (PrimFloat.eqb 10 0) with false. cbn [bind].
  unfold py_max, py_min. cbn [num_ltb binary64_num]. rewrite Hlt.
  reflexivity.
Qed.

Lemma nan_grade_scores_full_witness :
  normalized_grade nan_student ("maths", 14%float) = Ok 1%float.
Proof.
  apply nan_grade_scores_full. left. vm_compute. reflexivity.
Defined.

(** ** Keywords and edge programs, in exact arithmetic *)

Lemma common_mono (tags a b : list string) :
  (forall x, x ∈ a -> x ∈ b) -> common tags a ⊆ common tags b.
Proof.
  intros Hab x. unfold common.
  rewrite !elem_of_intersection, !elem_of_list_to_set. intuition.
Qed.

Lemma grade_value_same_grades self s1 s2 :
  grades s1 = grades s2 -> grade_value self s1 == grade_value self s2.
Proof.
  intros Hg. apply Qle_antisym; apply grade_value_mono; intros subject;
    unfold grade_of; rewrite Hg; apply Qle_refl.
Qed.



Lemma common_no_tags (a : list string) : size (common [] a) = 0%nat.
Proof.
  unfold common. rewrite list_to_set_nil, (left_absorb_L ∅ (∩)).
  apply size_empty.
Qed.



Lemma Qsum_perm (l l' : list Q) : Permutation l l' -> Qsum l == Qsum l'.
Proof.
  induction 1 as [|x l l' _ IH|x y l|l l' l'' _ IH1 _ IH2].
  - reflexivity.
  - change (x + Qsum l == x + Qsum l'). now rewrite IH.
  - change (y + (x + Qsum l) == x + (y + Qsum l)). lra.
  - now rewrite IH1.
Qed.



Lemma size_list_to_set_le (l : list string) :
  (size (list_to_set l : gset string) <= length l)%nat.
Proof.
  unfold size, set_size. cbn [mbind option_bind].
  apply submseteq_length, NoDup_submseteq; [apply NoDup_elements|].
  intros x Hx. apply elem_of_elements in Hx.
  now apply elem_of_list_to_set in Hx.
Qed.

Lemma size_list_to_set_full (l : list string) :
  size (list_to_set l : gset string) = length l -> NoDup l.
Proof.
  induction l as [|x l IH]; intros Hsize; [constructor|].
  rewrite list_to_set_cons in Hsize. cbn [length] in Hsize.
  pose proof (size_list_to_set_le l) as Hle.
  destruct (decide (x ∈ l)) as [Hin|Hout].
  - exfalso.
    assert (Hsub : ({[x]} : gset string) ⊆ list_to_set l).
    { intros y Hy. apply elem_of_singleton in Hy as ->.
      now apply elem_of_list_to_set. }
    rewrite (subseteq_union_1_L _ _ Hsub) in Hsize. lia.
  - assert (Hdisj : ({[x]} : gset string) ## list_to_set l).
    { intros y Hy Hy'. apply elem_of_singleton in Hy as ->.
      now apply elem_of_list_to_set in Hy'. }
    rewrite (size_union _ _ Hdisj), size_singleton in Hsize.
    constructor; [exact Hout | apply IH; lia].
Qed.

Lemma Q_len_ratio_one (a b : nat) :
  inject_Z (Z.of_nat a) / inject_Z (Z.of_nat (S b)) == 1 <-> a = S b.
Proof.
  pose proof (Q_len_pos b) as Hpos. split.
  - intros Hq.
    assert (Heq : inject_Z (Z.of_nat a) == inject_Z (Z.of_nat (S b))).
    { rewrite <- (Qmult_div_r (inject_Z (Z.of_nat a))
                    (inject_Z (Z.of_nat (S b)))) by lra.
      rewrite Hq. lra. }
    apply inject_Z_injective, Nat2Z.inj in Heq. exact Heq.
  - intros ->. field. lra.
Qed.

Lemma interest_value_one_iff (self : Program Q) (student : StudentProfile Q) :
  interest_value self student == 1 <->
  tags self <> [] /\ NoDup (tags self) /\
  forall t, t ∈ tags self -> t ∈ interests student.
Proof.
  unfold interest_value. destruct (tags self) as [|t0 ts] eqn:E.
  - split; [intros Hq; lra | intros [Hne _]; congruence].
  - rewrite <- E.
    assert (Hlen : length (tags self) = S (length ts)) by now rewrite E.
    rewrite Hlen, Q_len_ratio_one, <- Hlen.
    pose proof (size_list_to_set_le (tags self)) as Hle.
    assert (Hsub : common (tags self) (interests student)
                   ⊆ list_to_set (tags self))
      by (intros x Hx; unfold common in Hx;
          now apply elem_of_intersection in Hx as [Hx _]).
    pose proof (subseteq_size _ _ Hsub) as Hle'.
    split.
    + intros Hsize. split; [rewrite E; discriminate|].
      split; [apply size_list_to_set_full; lia|].
      intros t Ht.
      assert (Heq : common (tags self) (interests student)
                    = list_to_set (tags self))
        by (apply set_subseteq_size_eq; [exact Hsub | lia]).
      assert (Hin : t ∈ common (tags self) (interests student))
        by (rewrite Heq; now apply elem_of_list_to_set).
      unfold common in Hin. apply elem_of_intersection in Hin as [_ Hin].
      now apply elem_of_list_to_set in Hin.
    + intros (_ & Hnodup & Hall).
      rewrite <- (size_list_to_set (C:=gset string) _ Hnodup).
      f_equal. apply leibniz_equiv. unfold common. intros x.
      rewrite elem_of_intersection, !elem_of_list_to_set. intuition.
Qed.


Lemma Qsum_const {A} (f : A -> Q) (l : list A) (c : Q) :
  (forall x, In x l -> f x == c) ->
  Qsum (map f l) == inject_Z (Z.of_nat (length l)) * c.
Proof.
  intros Hf. induction l as [|x l IH].
  - change (0 == 0 * c). lra.
  - change (Qsum (map f (x :: l))) with (f x + Qsum (map f l)).
    cbn [length]. rewrite Q_len_succ, (Hf x) by now left.
    rewrite IH by (intros y Hy; apply Hf; now right). lra.
Qed.

Lemma grade_value_const (self : Program Q) (student : StudentProfile Q)
    (c : Q) :
  min_grades self <> [] ->
  (forall item, In item (min_grades self) -> term_of student item == c) ->
  grade_value self student == c.
Proof.
  intros Hne Hterms. unfold grade_value.
  destruct (min_grades self) as [|item items] eqn:E; [congruence|].
  rewrite <- E in *. rewrite py_sum_Qsum, (Qsum_const _ _ c Hterms).
  assert (Hpos : 0 < inject_Z (Z.of_nat (length (min_grades self))))
    by (rewrite E; apply Q_len_pos).
  field. lra.
Qed.



(** X22.  A [top_k] of at least the size of the catalog returns the whole
    catalog, scored and rearranged, with nothing added. *)
Theorem recommend_all (student : StudentProfile Q)
    (programs : list (Program Q)) (top_k : Z) :
  (Z.of_nat (length programs) <= top_k)%Z ->
  exists ranked,
    recommend_programs student programs top_k = Ok ranked /\
    Permutation (map fst ranked) programs /\
    Forall (fun entry => score_for entry.1 student = Ok entry.2) ranked.
Proof.
  intros Hk. eexists. split; [apply recommend_programs_value|].
  assert (Hall : slice_to (sort_reverse snd (scored_catalog student programs))
                   top_k
                 = sort_reverse snd (scored_catalog student programs)).
  { unfold slice_to. destruct (0 <=? top_k)%Z eqn:E; [|apply Z.leb_gt in E; lia].
    apply firstn_all2. rewrite length_sort_reverse.
    unfold scored_catalog. rewrite length_map. lia. }
  rewrite Hall. split.
  - rewrite <- (sort_reverse_perm snd (scored_catalog student programs)).
    unfold scored_catalog. rewrite map_map. cbn [fst]. now rewrite map_id.
  - apply Forall_forall. intros entry Hin.
    apply (scored_catalog_entry student programs).
    now rewrite (sort_reverse_perm snd (scored_catalog student programs)).
Qed.

Lemma recommend_all_witness :
  exists ranked,
    recommend_programs (num:=Q) example_student build_example_programs 10
    = Ok ranked /\
    Permutation (map fst ranked) build_example_programs /\
    Forall (fun entry => score_for entry.1 example_student = Ok entry.2)
           ranked.
Proof.
  apply recommend_all. cbn [length build_example_programs]. lia.
Defined.

(** ** The sort is determined by stability *)

Lemma with_key_head {A} (key : A -> Q) (x : A) (l : list A) :
  with_key key (key x) (x :: l) = x :: with_key key (key x) l.
Proof.
  unfold with_key. cbn [List.filter].
  assert (E : Qeq_bool (key x) (key x) = true) by (apply Qeq_bool_iff; lra).
  now rewrite E.
Qed.

Lemma with_key_In {A} (key : A -> Q) (v : Q) (x : A) (l : list A) :
  In x (with_key key v l) -> In x l /\ key x == v.
Proof.
  unfold with_key. intros Hin. apply List.filter_In in Hin as [Hin Hk].
  split; [exact Hin | now apply Qeq_bool_iff].
Qed.

Lemma sorted_head_greatest {A} (key : A -> Q) (x y : A) (l : list A) :
  Sorted (falls key) (x :: l) -> In y l -> key y <= key x.
Proof.
  intros Hs Hin.
  apply (@Sorted_StronglySorted _ (falls key) (falls_transitive key)) in Hs.
  apply StronglySorted_inv in Hs as [_ Hall].
  rewrite List.Forall_forall in Hall. exact (Hall y Hin).
Qed.

Lemma same_classes_heads {A} (key : A -> Q) (x y : A) (l1 l2 : list A) :
  Sorted (falls key) (x :: l1) -> Sorted (falls key) (y :: l2) ->
  (forall v, with_key key v (x :: l1) = with_key key v (y :: l2)) ->
  key y <= key x.
Proof.
  intros H1 H2 Hsame.
  destruct (Qlt_le_dec (key x) (key y)) as [Hlt|Hle]; [|exact Hle].
  exfalso.
  pose proof (Hsame (key y)) as Hy. rewrite (with_key_head key y) in Hy.
  assert (Hin : In y (with_key key (key y) (x :: l1)))
    by (rewrite Hy; now left).
  apply with_key_In in Hin as [[-> | Hin] _]; [lra|].
  pose proof (sorted_head_greatest key x y l1 H1 Hin). lra.
Qed.

Lemma sorted_same_classes {A} (key : A -> Q) (l1 l2 : list A) :
  Sorted (falls key) l1 -> Sorted (falls key) l2 ->
  (forall v, with_key key v l1 = with_key key v l2) -> l1 = l2.
Proof.
  revert l2. induction l1 as [|x l1 IH]; intros l2 H1 H2 Hsame.
  - destruct l2 as [|y l2]; [reflexivity|].
    pose proof (Hsame (key y)) as Hy. rewrite with_key_head in Hy.
    discriminate.
  - destruct l2 as [|y l2].
    + pose proof (Hsame (key x)) as Hx. rewrite with_key_head in Hx.
      discriminate.
    + assert (Hxy : key x == key y).
      { apply Qle_antisym.
        - apply (same_classes_heads key y x l2 l1); auto.
        - apply (same_classes_heads key x y l1 l2); auto. }
      assert (Hhead : x = y).
      { pose proof (Hsame (key x)) as Hx. rewrite with_key_head in Hx.
        unfold with_key in Hx. cbn [List.filter] in Hx.
        assert (E : Qeq_bool (key y) (key x) = true)
          by (apply Qeq_bool_iff; lra).
        rewrite E in Hx. now injection Hx. }
      subst y. f_equal. apply IH.
      * now apply Sorted_inv in H1.
      * now apply Sorted_inv in H2.
      * intros v. pose proof (Hsame v) as Hv.
        unfold with_key in *. cbn [List.filter] in Hv.
        destruct (Qeq_bool (key x) v); [now injection Hv | exact Hv].
Qed.

(** X3.  The ranking does not depend on how the sort works: a list in
    non-increasing key order that keeps, for every key, the items of that
    key in their order in [l] is the list that the sort returns. *)
Theorem stable_sort_unique {A} (key : A -> Q) (l l' : list A) :
  Sorted (falls key) l' ->
  (forall v, with_key key v l' = with_key key v l) ->
  l' = sort_reverse key l.
Proof.
  intros Hsorted Hsame. apply (sorted_same_classes key).
  - exact Hsorted.
  - apply sort_reverse_sorted.
  - intros v. now rewrite with_key_sort_reverse.
Qed.

Lemma stable_sort_unique_witness :
  [("b", 2%Q); ("a", 1%Q); ("c", 1%Q)] = sort_reverse snd tied_entries.
Proof.
  apply (stable_sort_unique snd).
  - repeat constructor; unfold falls; cbn [snd]; lra.
  - intros v. unfold with_key, tied_entries. cbn [List.filter snd].
    destruct (Qeq_bool 1 v) eqn:E1, (Qeq_bool 2 v) eqn:E2; try reflexivity.
    apply Qeq_bool_eq in E1, E2. lra.
Defined.

(** * Laws of the console part *)

(** ** Splitting at commas *)

Lemma split_comma_nonempty (s : string) : split_comma s <> [].
Proof.
  destruct s as [|c s]; cbn [split_comma]; [discriminate|].
  destruct (Ascii.eqb c ","); [discriminate|].
  destruct (split_comma s); discriminate.
Qed.

Lemma split_comma_free (s : string) :
  Forall (fun piece => ~ has_char "," piece) (split_comma s).
Proof.
  induction s as [|c s IH].
  - repeat constructor. intros [].
  - cbn [split_comma]. destruct (Ascii.eqb_spec c ",") as [->|Hc].
    + constructor; [intros [] | exact IH].
    + destruct (split_comma s) as [|piece pieces] eqn:E.
      * now destruct (split_comma_nonempty s).
      * apply Forall_cons in IH as [Hpiece Hpieces].
        constructor; [|exact Hpieces].
        cbn [has_char]. intros [Heq | Hin]; [congruence | contradiction].
Qed.

(** X12.  Nothing is lost at the commas: the pieces of [s.split(",")],
    joined with commas again, are [s], and no piece holds a comma. *)
Theorem split_comma_join (s : string) :
  String.concat "," (split_comma s) = s /\
  Forall (fun piece => ~ has_char "," piece) (split_comma s).
Proof.
  split; [|apply split_comma_free].
  induction s as [|c s IH]; [reflexivity|].
  cbn [split_comma]. destruct (Ascii.eqb_spec c ",") as [->|Hc].
  - pose proof (split_comma_nonempty s) as Hne.
    cbn [String.concat]. destruct (split_comma s); [contradiction|].
    cbn [String.append]. now rewrite IH.
  - destruct (split_comma s) as [|piece pieces] eqn:E.
    + now destruct (split_comma_nonempty s).
    + cbn [String.concat] in *.
      destruct pieces; cbn [String.append]; now rewrite <- IH.
Qed.

Section ConsoleLaws.
Context {num : Type} `{PyNum num}.
Variable strip : string -> string.
Variable lower : string -> string.
Variable to_float : string -> option num.
Variable format_2f : num -> string.

(** ** [ask_float] *)

(** The loop of [ask_float], one turn at a time: the bound on the turns is
    never what ends it. *)
Lemma ask_float_unfold (prompt : string) (w : console) :
  ask_float strip to_float prompt w
  = (let! answer := ask_float_turn strip to_float prompt in
     match answer with
     | Some x => io_ret x
     | None => ask_float strip to_float prompt
     end) w.
Proof.
  destruct w as [lines out]. unfold ask_float. cbn [stdin].
  destruct lines as [|line rest]; [reflexivity|].
  cbn [length ask_float_loop].
  cbv [io_bind ask_float_turn input print io_ret stdin stdout tail].
  destruct (to_float (replace_comma (strip line))); reflexivity.
Qed.

Lemma ask_float_turn_invalid prompt line rest out :
  to_float (replace_comma (strip line)) = None ->
  ask_float_turn strip to_float prompt {| stdin := line :: rest; stdout := out |}
  = (Return None,
     {| stdin := rest; stdout := (out ++ [prompt]) ++ [invalid_number] |}).
Proof.
  intros E. cbv [ask_float_turn io_bind input print io_ret stdin stdout tail].
  now rewrite E.
Qed.

(** X13.  [ask_float] returns the first number: it skips the lines that are no
    number, writing the prompt and the complaint once for each, reads no
    line beyond the number, and writes the prompt once more for it. *)
Theorem ask_float_first_valid (prompt : string) (bad : list string)
    (good : string) (rest out : list string) (x : num) :
  Forall (fun line => to_float (replace_comma (strip line)) = None) bad ->
  to_float (replace_comma (strip good)) = Some x ->
  ask_float strip to_float prompt
    {| stdin := bad ++ good :: rest; stdout := out |}
  = (Return x,
     {| stdin := rest;
        stdout := out ++ rejections prompt bad ++ [prompt] |}).
Proof.
  intros Hbad Hgood. revert out.
  induction Hbad as [|line bad Hline _ IH]; intros out.
  - rewrite ask_float_unfold.
    cbv [io_bind ask_float_turn input io_ret app stdin stdout tail rejections
         flat_map].
    now rewrite Hgood.
  - rewrite ask_float_unfold. unfold io_bind.
    change ((line :: bad) ++ good :: rest) with (line :: (bad ++ good :: rest)).
    rewrite (ask_float_turn_invalid _ _ _ _ Hline), IH.
    f_equal. f_equal. unfold rejections. cbn [flat_map].
    now rewrite <- !app_assoc.
Qed.

(** X14.  Without a number among the lines left, [ask_float] never returns one:
    it rejects every line and ends with [EOFError]. *)
Theorem ask_float_no_number (prompt : string) (bad out : list string) :
  Forall (fun line => to_float (replace_comma (strip line)) = None) bad ->
  ask_float strip to_float prompt {| stdin := bad; stdout := out |}
  = (Throw EOFError,
     {| stdin := []; stdout := out ++ rejections prompt bad ++ [prompt] |}).
Proof.
  intros Hbad. revert out.
  induction Hbad as [|line bad Hline _ IH]; intros out.
  - reflexivity.
  - rewrite ask_float_unfold. unfold io_bind.
    rewrite (ask_float_turn_invalid _ _ _ _ Hline), IH.
    f_equal. f_equal. unfold rejections. cbn [flat_map].
    now rewrite <- !app_assoc.
Qed.

(** ** [ask_list] *)

Lemma ask_list_line prompt line rest out :
  ask_list strip lower prompt {| stdin := line :: rest; stdout := out |}
  = (Return (keywords strip lower line),
     {| stdin := rest; stdout := out ++ [prompt] |}).
Proof.
  cbv [ask_list keywords io_bind input io_ret stdin stdout tail].
  destruct (is_empty (lower (strip line))); reflexivity.
Qed.

Lemma is_empty_true (s : string) : is_empty s = true <-> s = "".
Proof. destruct s; cbn; split; congruence. Qed.

Lemma keywords_items (line : string) :
  Forall (fun item =>
            item <> "" /\
            exists piece, In piece (split_comma (lower (strip line))) /\
                          item = strip piece)
         (keywords strip lower line).
Proof.
  unfold keywords.
  destruct (is_empty (lower (strip line))); [constructor|].
  apply Forall_forall. intros item Hin.
  apply list_elem_of_In, in_map_iff in Hin as (piece & <- & Hpiece).
  apply List.filter_In in Hpiece as [Hpiece Hfull].
  split; [|now exists piece].
  intros E. apply is_empty_true in E. rewrite E in Hfull. discriminate.
Qed.

(** X15.  [ask_list] reads one line and returns keywords of which none is empty,
    each the strip of a piece between commas of the stripped, lowered
    line; a line that strips to nothing gives no keyword at all; at the
    end of the input it raises [EOFError]. *)
Theorem ask_list_keywords (prompt line : string) (rest out : list string) :
  (exists items,
     ask_list strip lower prompt {| stdin := line :: rest; stdout := out |}
     = (Return items, {| stdin := rest; stdout := out ++ [prompt] |}) /\
     Forall (fun item =>
               item <> "" /\
               exists piece, In piece (split_comma (lower (strip line))) /\
                             item = strip piece) items /\
     (lower (strip line) = "" -> items = [])) /\
  ask_list strip lower prompt {| stdin := []; stdout := out |}
  = (Throw EOFError, {| stdin := []; stdout := out ++ [prompt] |}).
Proof.
  split; [|reflexivity].
  exists (keywords strip lower line). split; [apply ask_list_line|].
  split; [apply keywords_items|].
  intros E. unfold keywords. now rewrite E.
Qed.

(** X16.  If [strip] only removes characters, no keyword of [ask_list] holds a
    comma. *)
Theorem ask_list_no_comma (prompt line : string) (rest out : list string) :
  (forall s c, has_char c (strip s) -> has_char c s) ->
  exists items w,
    ask_list strip lower prompt {| stdin := line :: rest; stdout := out |}
    = (Return items, w) /\
    Forall (fun item => ~ has_char "," item) items.
Proof.
  intros Hstrip.
  exists (keywords strip lower line),
    {| stdin := rest; stdout := out ++ [prompt] |}.
  split; [apply ask_list_line|].
  pose proof (keywords_items line) as Hitems.
  apply Forall_forall. intros item Hin.
  rewrite Forall_forall in Hitems.
  destruct (Hitems item Hin) as (_ & piece & Hpiece & ->).
  intros Hcomma. apply Hstrip in Hcomma.
  pose proof (split_comma_free (lower (strip line))) as Hfree.
  rewrite Forall_forall in Hfree.
  apply (Hfree piece); [now apply list_elem_of_In | exact Hcomma].
Qed.
End ConsoleLaws.

(** ** [collect_student_profile] and [main] *)

Lemma io_bind_return {A B} (c : io A) (k : A -> io B) (w w' : console) a :
  c w = (Return a, w') -> io_bind c k w = k a w'.
Proof. intros E. unfold io_bind. now rewrite E. Qed.

Lemma io_bind_throw {A B} (c : io A) (k : A -> io B) (w w' : console) e :
  c w = (Throw e, w') -> io_bind c k w = (Throw e, w').
Proof. intros E. unfold io_bind. now rewrite E. Qed.

Section ProfileLaws.
Context {num : Type} `{PyNum num}.
Variable strip : string -> string.
Variable lower : string -> string.
Variable to_float : string -> option num.
Variable format_2f : num -> string.

Lemma ask_grades_reads (subs lines : list string) (g : gmap string num)
    (rest out : list string) :
  length lines = length subs ->
  exists out',
    ask_grades strip to_float subs g
      {| stdin := lines ++ rest; stdout := out |}
    = (Return (record_grades strip to_float subs lines g),
       {| stdin := rest; stdout := out' |}).
Proof.
  revert lines g out. induction subs as [|s subs IH]; intros lines g out Hlen.
  - destruct lines; [|discriminate]. now eexists.
  - destruct lines as [|line lines]; [discriminate|].
    injection Hlen as Hlen.
    cbn [ask_grades record_grades app]. unfold parse_grade.
    cbv [io_bind input print stdin stdout tail].
    destruct (is_empty (strip line)); [now apply IH|].
    destruct (to_float (replace_comma (strip line))); now apply IH.
Qed.

Lemma ask_grades_eof (subs lines : list string) (g : gmap string num)
    (out : list string) :
  (length lines < length subs)%nat ->
  exists out',
    ask_grades strip to_float subs g {| stdin := lines; stdout := out |}
    = (Throw EOFError, {| stdin := []; stdout := out' |}).
Proof.
  revert lines g out. induction subs as [|s subs IH]; intros lines g out Hlen.
  - cbn [length] in Hlen. lia.
  - destruct lines as [|line lines].
    + now eexists.
    + cbn [length] in Hlen. cbn [ask_grades].
      cbv [io_bind input print stdin stdout tail].
      destruct (is_empty (strip line)); [apply IH; lia|].
      destruct (to_float (replace_comma (strip line))); apply IH; lia.
Qed.

Lemma record_grades_other (subs lines : list string) (g : gmap string num)
    (s : string) :
  s ∉ subs ->
  record_grades strip to_float subs lines g !! s = g !! s.
Proof.
  revert lines g. induction subs as [|s0 subs IH]; intros lines g Hout.
  - reflexivity.
  - destruct lines as [|line lines]; [reflexivity|].
    apply not_elem_of_cons in Hout as [Hne Hout].
    cbn [record_grades]. rewrite (IH _ _ Hout).
    destruct (parse_grade strip to_float line); [|reflexivity].
    now rewrite lookup_insert_ne.
Qed.

Lemma record_grades_at (subs lines : list string) (g : gmap string num)
    (k : nat) (s line : string) :
  NoDup subs -> subs !! k = Some s -> lines !! k = Some line ->
  record_grades strip to_float subs lines g !! s
  = match parse_grade strip to_float line with
    | Some grade => Some grade
    | None => g !! s
    end.
Proof.
  revert lines g k.
  induction subs as [|s0 subs IH]; intros lines g k Hnodup Hs Hline.
  - discriminate.
  - destruct lines as [|line0 lines]; [discriminate|].
    apply NoDup_cons in Hnodup as [Hfresh Hnodup].
    cbn [record_grades]. destruct k as [|k].
    + injection Hs as ->. injection Hline as ->.
      rewrite (record_grades_other _ _ _ _ Hfresh).
      destruct (parse_grade strip to_float line); [|reflexivity].
      apply lookup_insert_eq.
    + cbn in Hs, Hline. rewrite (IH _ _ k Hnodup Hs Hline).
      destruct (parse_grade strip to_float line); [reflexivity|].
      assert (Hne : s0 <> s).
      { intros ->. apply Hfresh. eapply list_elem_of_lookup_2. exact Hs. }
      destruct (parse_grade strip to_float line0); [|reflexivity].
      now rewrite lookup_insert_ne.
Qed.

Lemma subjects_NoDup : NoDup subjects.
Proof.
  unfold subjects. repeat (apply NoDup_cons; split;
    [rewrite ?elem_of_cons, elem_of_nil; intuition discriminate|]).
  apply NoDup_nil_2.
Qed.

Lemma collect_run (name : string) (grade_lines : list string)
    (i a : string) (rest out : list string) :
  length grade_lines = 6%nat ->
  exists out',
    collect_student_profile strip lower to_float
      {| stdin := name :: grade_lines ++ i :: a :: rest; stdout := out |}
    = (Return {| student_name := strip name;
                 grades := record_grades strip to_float subjects
                             grade_lines ∅;
                 interests := keywords strip lower i;
                 aspirations := keywords strip lower a |},
       {| stdin := rest; stdout := out' |}).
Proof.
  intros Hlen.
  destruct (ask_grades_reads subjects grade_lines ∅ (i :: a :: rest)
              (out ++ ["=== ORIENTAI : PROFIL ÉLÈVE ==="]
               ++ ["Nom de l'élève : "]
               ++ [(nl ++ "Entrez les notes de l'élève (0 à 20). Laissez vide si pas de note :")%string]))
    as [out1 Hgrades]; [exact Hlen|].
  eexists. unfold collect_student_profile.
  erewrite io_bind_return by reflexivity.
  erewrite io_bind_return by reflexivity.
  erewrite io_bind_return by reflexivity.
  cbn [stdin stdout tail].
  erewrite io_bind_return by (rewrite <- !app_assoc; exact Hgrades).
  erewrite io_bind_return by apply ask_list_line.
  erewrite io_bind_return by apply ask_list_line.
  reflexivity.
Qed.

Lemma collect_eof (w : console) :
  (length (stdin w) < 9)%nat ->
  exists out',
    collect_student_profile strip lower to_float w
    = (Throw EOFError, {| stdin := []; stdout := out' |}).
Proof.
  destruct w as [lines out]. cbn [stdin]. intros Hlen.
  unfold collect_student_profile.
  erewrite io_bind_return by reflexivity.
  destruct lines as [|name lines].
  - eexists. erewrite io_bind_throw by reflexivity. reflexivity.
  - cbn [length] in Hlen.
    erewrite io_bind_return by reflexivity.
    erewrite io_bind_return by reflexivity.
    cbn [stdin stdout tail].
    destruct (le_lt_dec 6 (length lines)) as [Hsix|Hfew].
    + match goal with
      | |- context [{| stdin := lines; stdout := ?o |}] =>
          destruct (ask_grades_reads subjects (take 6 lines) ∅
                      (drop 6 lines) o) as [out1 Hg];
            [rewrite length_take; unfold subjects; cbn [length]; lia|]
      end.
      rewrite take_drop in Hg. erewrite io_bind_return by exact Hg.
      assert (Hrest : (length (drop 6 lines) < 2)%nat)
        by (rewrite length_drop; lia).
      destruct (drop 6 lines) as [|i [|a rest]].
      * eexists. erewrite io_bind_throw by reflexivity. reflexivity.
      * erewrite io_bind_return by apply ask_list_line.
        eexists. erewrite io_bind_throw by reflexivity. reflexivity.
      * cbn [length] in Hrest. lia.
    + match goal with
      | |- context [{| stdin := lines; stdout := ?o |}] =>
          destruct (ask_grades_eof subjects lines ∅ o) as [out1 Hg];
            [unfold subjects; cbn [length]; lia|]
      end.
      eexists. erewrite io_bind_throw by exact Hg. reflexivity.
Qed.

(** Nine lines or more are a name, six grade lines, two keyword lines and
    the lines beyond the ninth. *)
Lemma nine_lines (lines : list string) :
  (9 <= length lines)%nat ->
  exists name grade_lines i a,
    lines = name :: grade_lines ++ i :: a :: drop 9 lines /\
    length grade_lines = 6%nat.
Proof.
  intros Hlen. destruct lines as [|name lines]; [cbn in Hlen; lia|].
  cbn [length] in Hlen.
  assert (Hrest : (2 <= length (drop 6 lines))%nat)
    by (rewrite length_drop; lia).
  destruct (drop 6 lines) as [|i [|a rest]] eqn:E;
    [cbn in Hrest; lia | cbn in Hrest; lia |].
  exists name, (take 6 lines), i, a. split.
  - assert (Hrest' : drop 9 (name :: lines) = rest).
    { change (drop 9 (name :: lines)) with (drop (6 + 2) lines).
      rewrite <- drop_drop, E. reflexivity. }
    rewrite Hrest', <- E. now rewrite take_drop.
  - rewrite length_take. lia.
Qed.

(** X17.  [collect_student_profile] reads nine lines: the name, one line
    for each of the six subjects, the interests and the aspirations.  The
    name is the strip of its line; a subject has the grade its line gives,
    and none when that line is blank or no number; no other subject has a
    grade; the keywords are those of the last two lines.  A line that is
    no number costs its subject the grade but raises nothing. *)
Theorem collect_student_profile_reads (name : string)
    (grade_lines : list string) (i a : string) (rest out : list string) :
  length grade_lines = 6%nat ->
  exists profile out',
    collect_student_profile strip lower to_float
      {| stdin := name :: grade_lines ++ i :: a :: rest; stdout := out |}
    = (Return profile, {| stdin := rest; stdout := out' |}) /\
    student_name profile = strip name /\
    (forall k subject line,
        subjects !! k = Some subject -> grade_lines !! k = Some line ->
        grades profile !! subject = parse_grade strip to_float line) /\
    (forall subject, subject ∉ subjects -> grades profile !! subject = None) /\
    interests profile = keywords strip lower i /\
    aspirations profile = keywords strip lower a.
Proof.
  intros Hlen.
  destruct (collect_run name grade_lines i a rest out Hlen) as [out' Hrun].
  eexists. exists out'. split; [exact Hrun|].
  split; [reflexivity|]. split; [|split; [|split; reflexivity]].
  - intros k subject line Hs Hline. cbn [grades].
    rewrite (record_grades_at _ _ _ k subject line subjects_NoDup Hs Hline).
    destruct (parse_grade strip to_float line); [reflexivity|].
    apply lookup_empty.
  - intros subject Hout. cbn [grades].
    rewrite (record_grades_other _ _ _ _ Hout). apply lookup_empty.
Qed.

(** X18.  [collect_student_profile] needs nine lines and reads no more:
    with nine or more it returns a profile and leaves the lines after the
    ninth; with fewer it reads them all and ends with [EOFError]. *)
Theorem collect_student_profile_nine_lines (w : console) :
  ((9 <= length (stdin w))%nat ->
   exists profile out',
     collect_student_profile strip lower to_float w
     = (Return profile, {| stdin := drop 9 (stdin w); stdout := out' |})) /\
  ((length (stdin w) < 9)%nat ->
   exists out',
     collect_student_profile strip lower to_float w
     = (Throw EOFError, {| stdin := []; stdout := out' |})).
Proof.
  split; [|apply collect_eof].
  destruct w as [lines out]. cbn [stdin]. intros Hlen.
  destruct (nine_lines lines Hlen) as (name & grade_lines & i & a & Hl & H6).
  destruct (collect_run name grade_lines i a (drop 9 lines) out H6)
    as [out' Hrun].
  rewrite <- Hl in Hrun. eexists. exists out'. exact Hrun.
Qed.

Lemma print_recommendations (l : list (Program num * num)) (w : console) :
  io_for_each (print_recommendation format_2f) l w
  = (Return tt,
     {| stdin := stdin w;
        stdout := stdout w ++ flat_map (report format_2f) l |}).
Proof.
  revert w. induction l as [|[prog score] l IH]; intros [lines out].
  - cbn [io_for_each flat_map stdin stdout]. now rewrite app_nil_r.
  - cbn [io_for_each]. erewrite io_bind_return by reflexivity.
    rewrite IH. cbn [stdin stdout flat_map report fst snd].
    f_equal. f_equal. now rewrite <- !app_assoc.
Qed.

Lemma main_run (w w' : console) (student : StudentProfile num)
    (ranked : list (Program num * num)) :
  collect_student_profile strip lower to_float w = (Return student, w') ->
  recommend_programs student build_example_programs 3 = Ok ranked ->
  main strip lower to_float format_2f w
  = (Return tt,
     {| stdin := stdin w';
        stdout := stdout w' ++ headings (student_name student)
                  ++ flat_map (report format_2f) ranked |}).
Proof.
  intros Hc Hr. unfold main. erewrite io_bind_return by exact Hc.
  erewrite io_bind_return by reflexivity.
  rewrite Hr. erewrite io_bind_return by reflexivity.
  erewrite io_bind_return by reflexivity.
  rewrite print_recommendations. cbn [stdin stdout]. unfold headings.
  f_equal. f_equal. now rewrite <- !app_assoc.
Qed.

(** X20.  With fewer than nine lines to read, [main] ends with the
    [EOFError] of the collection: it has printed what the collection
    printed, and no ranking. *)
Theorem main_short_input (w : console) :
  (length (stdin w) < 9)%nat ->
  exists out',
    collect_student_profile strip lower to_float w
    = (Throw EOFError, {| stdin := []; stdout := out' |}) /\
    main strip lower to_float format_2f w
    = (Throw EOFError, {| stdin := []; stdout := out' |}).
Proof.
  intros Hlen.
  destruct (collect_eof w Hlen) as [out' Hc].
  exists out'. split; [exact Hc|].
  unfold main. now erewrite io_bind_throw by exact Hc.
Qed.
End ProfileLaws.

Section MainLaws.
Variable strip : string -> string.
Variable lower : string -> string.
Variable to_float : string -> option Q.
Variable format_2f : Q -> string.

Lemma recommend_three (student : StudentProfile Q) :
  exists ranked,
    recommend_programs student build_example_programs 3 = Ok ranked /\
    length ranked = 3%nat.
Proof.
  eexists. split; [apply recommend_programs_value|].
  rewrite length_slice_to, length_sort_reverse.
  unfold scored_catalog. now rewrite length_map.
Qed.

(** X19.  With nine lines to read, [main] reads exactly these, ranks the
    example catalog for the student they describe, and prints the two
    headings and then three texts for each of exactly three
    recommendations, in the order of the ranking; no division raises. *)
Theorem main_reports_three (name : string) (grade_lines : list string)
    (i a : string) (rest out : list string) :
  length grade_lines = 6%nat ->
  exists student out' ranked,
    collect_student_profile strip lower to_float
      {| stdin := name :: grade_lines ++ i :: a :: rest; stdout := out |}
    = (Return student, {| stdin := rest; stdout := out' |}) /\
    recommend_programs student build_example_programs 3 = Ok ranked /\
    length ranked = 3%nat /\
    main strip lower to_float format_2f
      {| stdin := name :: grade_lines ++ i :: a :: rest; stdout := out |}
    = (Return tt,
       {| stdin := rest;
          stdout := out' ++ headings (student_name student)
                    ++ flat_map (report format_2f) ranked |}).
Proof.
  intros Hlen.
  destruct (collect_run strip lower to_float name grade_lines i a rest out
              Hlen) as [out' Hc].
  eexists. exists out'.
  edestruct recommend_three as (ranked & Hr & Hlength).
  exists ranked. split; [exact Hc|]. split; [exact Hr|].
  split; [exact Hlength|].
  exact (main_run strip lower to_float format_2f _ _ _ _ Hc Hr).
Qed.

(** X21.  The only exception [main] ends with is [EOFError]: the scoring
    never raises. *)
Theorem main_raises_only_eof (w w' : console) (e : error) :
  main strip lower to_float format_2f w = (Throw e, w') -> e = EOFError.
Proof.
  intros Hmain.
  destruct (le_lt_dec 9 (length (stdin w))) as [Hnine|Hfew].
  - exfalso. destruct w as [lines out]. cbn [stdin] in Hnine.
    destruct (nine_lines lines Hnine)
      as (name & grade_lines & i & a & Hl & H6).
    destruct (collect_run strip lower to_float name grade_lines i a
                (drop 9 lines) out H6) as [out' Hc].
    rewrite <- Hl in Hc.
    edestruct recommend_three as (ranked & Hr & _).
    rewrite (main_run strip lower to_float format_2f _ _ _ _ Hc Hr) in Hmain.
    discriminate.
  - destruct (collect_eof strip lower to_float w Hfew) as [out' Hc].
    unfold main in Hmain.
    erewrite io_bind_throw in Hmain by exact Hc. now injection Hmain.
Qed.
End MainLaws.

(** ** The console laws at work *)

Lemma ask_float_first_valid_witness :
  ask_float plain small_number "note : "
    {| stdin := ["abc"; ""; "12"; "7"]; stdout := [] |}
  = (Return 12%Q,
     {| stdin := ["7"];
        stdout := [] ++ rejections "note : " ["abc"; ""] ++ ["note : "] |}).
Proof.
  apply (ask_float_first_valid plain small_number "note : " ["abc"; ""]
           "12" ["7"] [] 12%Q).
  - repeat constructor.
  - vm_compute. reflexivity.
Defined.

Lemma ask_float_no_number_witness :
  ask_float plain small_number "note : "
    {| stdin := ["abc"; "21"]; stdout := [] |}
  = (Throw EOFError,
     {| stdin := [];
        stdout := [] ++ rejections "note : " ["abc"; "21"] ++ ["note : "] |}).
Proof.
  apply (ask_float_no_number plain small_number "note : " ["abc"; "21"] []).
  repeat constructor.
Defined.

Lemma ask_list_no_comma_witness :
  exists items w,
    ask_list plain plain "mots : "
      {| stdin := ["a,,b"]; stdout := [] |} = (Return items, w) /\
    Forall (fun item => ~ has_char "," item) items.
Proof.
  apply (ask_list_no_comma plain plain "mots : " "a,,b" [] []).
  intros s c Hc. exact Hc.
Defined.

Lemma collect_student_profile_reads_witness :
  exists profile out',
    collect_student_profile plain plain small_number
      {| stdin := session; stdout := [] |}
    = (Return profile, {| stdin := ["extra"]; stdout := out' |}) /\
    grades profile !! "maths" = Some 16%Q /\
    grades profile !! "svt" = None /\
    grades profile !! "philo" = None.
Proof.
  destruct (collect_student_profile_reads plain plain small_number
              "  Ada " ["16"; "14"; ""; "12"; "abc"; ""]
              "informatique,algorithmes" "ingénieur" ["extra"] [] eq_refl)
    as (profile & out' & Hrun & _ & Hgrades & _).
  exists profile, out'. split; [exact Hrun|].
  split; [|split].
  - exact (Hgrades 0%nat "maths" "16" eq_refl eq_refl).
  - exact (Hgrades 2%nat "svt" "" eq_refl eq_refl).
  - exact (Hgrades 4%nat "philo" "abc" eq_refl eq_refl).
Defined.

Lemma collect_student_profile_nine_lines_witness :
  (exists profile out',
     collect_student_profile plain plain small_number
       {| stdin := session; stdout := [] |}
     = (Return profile, {| stdin := ["extra"]; stdout := out' |})) /\
  (exists out',
     collect_student_profile plain plain small_number
       {| stdin := ["Ada"; "16"]; stdout := [] |}
     = (Throw EOFError, {| stdin := []; stdout := out' |})).
Proof.
  split.
  - apply (proj1 (collect_student_profile_nine_lines plain plain
                    small_number {| stdin := session; stdout := [] |})).
    cbn [stdin session length]. lia.
  - apply (proj2 (collect_student_profile_nine_lines plain plain
                    small_number {| stdin := ["Ada"; "16"]; stdout := [] |})).
    cbn [stdin length]. lia.
Defined.

Lemma main_short_input_witness :
  exists out',
    collect_student_profile plain plain small_number
      {| stdin := ["Ada"; "16"]; stdout := [] |}
    = (Throw EOFError, {| stdin := []; stdout := out' |}) /\
    main plain plain small_number as_fraction
      {| stdin := ["Ada"; "16"]; stdout := [] |}
    = (Throw EOFError, {| stdin := []; stdout := out' |}).
Proof.
  apply (main_short_input plain plain small_number as_fraction
           {| stdin := ["Ada"; "16"]; stdout := [] |}).
  cbn [stdin length]. lia.
Defined.

Lemma main_reports_three_witness :
  exists student out' ranked,
    collect_student_profile plain plain small_number
      {| stdin := session; stdout := [] |}
    = (Return student, {| stdin := ["extra"]; stdout := out' |}) /\
    recommend_programs student build_example_programs 3 = Ok ranked /\
    length ranked = 3%nat /\
    main plain plain small_number as_fraction
      {| stdin := session; stdout := [] |}
    = (Return tt,
       {| stdin := ["extra"];
          stdout := out' ++ headings (student_name student)
                    ++ flat_map (report as_fraction) ranked |}).
Proof.
  exact (main_reports_three plain plain small_number as_fraction
           "  Ada " ["16"; "14"; ""; "12"; "abc"; ""]
           "informatique,algorithmes" "ingénieur" ["extra"] [] eq_refl).
Defined.

Lemma main_raises_only_eof_witness :
  main plain plain small_number as_fraction {| stdin := []; stdout := [] |}
  = (Throw EOFError,
     {| stdin := [];
        stdout := ["=== ORIENTAI : PROFIL ÉLÈVE ==="; "Nom de l'élève : "] |})
  /\ EOFError = EOFError.
Proof.
  assert (Hrun : main plain plain small_number as_fraction
                   {| stdin := []; stdout := [] |}
                 = (Throw EOFError,
                    {| stdin := [];
                       stdout := ["=== ORIENTAI : PROFIL ÉLÈVE ===";
                                  "Nom de l'élève : "] |}))
    by reflexivity.
  split; [exact Hrun|].
  exact (main_raises_only_eof plain plain small_number as_fraction _ _ _ Hrun).
Defined.

Lemma ask_list_keywords_witness :
  lower_blank_line = "" /\
  ask_list plain plain "mots : " {| stdin := [""; "x"]; stdout := [] |}
  = (Return [], {| stdin := ["x"]; stdout := [] ++ ["mots : "] |}).
Proof.
  split; [reflexivity|].
  destruct (ask_list_keywords plain plain "mots : " "" ["x"] [])
    as [(items & Hrun & _ & Hblank) _].
  rewrite Hrun. now rewrite (Hblank eq_refl).
Defined.
